(** * MI-FINANZA, [app/static/app.js]: cache-aside synchronisation and
      monetary aggregation of the browser client.

    The development embeds the client code shallowly:

    - [JSNumber]: the ECMAScript Number type (IEEE 754 binary64, on the
      computable [spec_float] of the Standard Library) with the conversions
      the code calls: [Number(string)], [String(number)], [toFixed],
      [Math.round], [Math.min], [Math.max], [Number.isFinite];
    - [Money]: [amountStrToCents], [centsToAmountStr], [pickCurrency] and the
      figures of [renderDashboard];
    - [CacheStore]: [cacheGet] and [cacheSet] over a fallible IndexedDB;
    - [App]: the [init*] orchestrators and the action handlers, as programs
      of a state-and-exception monad over the cache, the screen, the
      network and the confirmation dialogs.

    Strings are sequences of 8-bit code units (code points 0 to 255). *)

From Stdlib Require Import ZArith NArith Bool List Ascii String Lia.
From Stdlib Require Import Floats.SpecFloat.
From stdpp Require Import base option gmap strings.

Set Default Proof Using "Type".
Set Warnings "-register-all".
Local Open Scope string_scope.
Local Open Scope Z_scope.

(* ===================================================================== *)
(** ** ECMAScript numbers *)

Module JSNumber.

(** A Number is a binary64 value. *)
Definition number : Type := spec_float.

Definition prec : Z := 53.
Definition emax : Z := 1024.

Definition NaN : number := S754_nan.
Definition pos_zero : number := S754_zero false.
Definition neg_zero : number := S754_zero true.

(** The Number value for an integer: round to nearest, ties to even. *)
Definition of_Z (z : Z) : number := binary_normalize prec emax z 0 false.

Definition add : number -> number -> number := SFadd prec emax.
Definition sub : number -> number -> number := SFsub prec emax.
Definition mul : number -> number -> number := SFmul prec emax.
Definition div : number -> number -> number := SFdiv prec emax.

(** [x < y], [x > y], [x >= y]: false as soon as an operand is NaN. *)
Definition lt (x y : number) : bool := SFltb x y.
Definition gt (x y : number) : bool := SFltb y x.
Definition ge (x y : number) : bool := SFleb y x.
Definition le (x y : number) : bool := SFleb x y.

(** [Number.isFinite]. *)
Definition isFinite (x : number) : bool :=
  match x with
  | S754_zero _ | S754_finite _ _ _ => true
  | S754_infinity _ | S754_nan => false
  end.

Definition isNaN (x : number) : bool :=
  match x with S754_nan => true | _ => false end.

(** ToBoolean on a Number: [+0], [-0] and [NaN] are falsy. *)
Definition truthy (x : number) : bool :=
  match x with
  | S754_zero _ | S754_nan => false
  | _ => true
  end.

(** The sign and the exact integer mantissa of a finite number:
    [x = signed_mantissa * 2 ^ e]. *)
Definition signed (s : bool) (m : positive) : Z :=
  if s then Z.neg m else Z.pos m.

(** [Math.round]: the closest integer, a tie going towards +Infinity;
    the result keeps the sign of [x] when it is zero. Computed exactly:
    for [x = v * 2^e] with [e < 0],
    [floor (x + 1/2) = (2 v + 2^-e) / 2^(1-e)]. *)
Definition Math_round (x : number) : number :=
  match x with
  | S754_finite s m e =>
      if 0 <=? e then x
      else
        let n := Z.shiftr (2 * signed s m + 2 ^ (- e)) (1 - e) in
        if n =? 0 then S754_zero s else of_Z n
  | _ => x
  end.

(** [Math.min] and [Math.max] of two arguments: NaN is contagious and
    [-0] is below [+0]. *)
Definition Math_min (x y : number) : number :=
  match SFcompare x y with
  | None => NaN
  | Some Lt => x
  | Some Gt => y
  | Some Eq => match x with S754_zero true => x | _ => y end
  end.

Definition Math_max (x y : number) : number :=
  match SFcompare x y with
  | None => NaN
  | Some Lt => y
  | Some Gt => x
  | Some Eq => match x with S754_zero false => x | _ => y end
  end.

(** *** Decimal digits *)

Definition is_digit (c : ascii) : bool :=
  let n := N_of_ascii c in ((48 <=? n) && (n <=? 57))%N.

Definition digit_val (c : ascii) : Z := Z.of_N (N_of_ascii c) - 48.

Definition digit_char (d : Z) : ascii := ascii_of_N (Z.to_N (d + 48)).

(** StrWhiteSpaceChar, in the 8-bit range: TAB, LF, VT, FF, CR, SP, NBSP. *)
Definition is_space (c : ascii) : bool :=
  let n := N_of_ascii c in
  (((9 <=? n) && (n <=? 13)) || (n =? 32) || (n =? 160))%N.

(** Decimal digits of a non-negative integer, most significant first;
    ["0"] for zero. *)
Fixpoint digits_fuel (fuel : nat) (n : Z) (acc : string) : string :=
  match fuel with
  | O => acc
  | S fuel' =>
      let acc' := String (digit_char (n mod 10)) acc in
      if n <? 10 then acc' else digits_fuel fuel' (n / 10) acc'
  end.

Definition string_of_Z_nonneg (n : Z) : string :=
  digits_fuel (S (Z.to_nat (Z.log2 n))) n "".

Definition string_of_Z (n : Z) : string :=
  if n <? 0 then "-" ++ string_of_Z_nonneg (- n) else string_of_Z_nonneg n.

Fixpoint repeat_char (c : ascii) (n : nat) : string :=
  match n with
  | O => ""
  | S n' => String c (repeat_char c n')
  end.

(** *** The Number value of a decimal literal *)

(** The Number value for [m * 10^e10], [m >= 0]: the binary64 value
    nearest to the exact rational, ties to even; overflow gives an
    infinity, underflow a subnormal or a zero. *)
Definition of_decimal (neg : bool) (m : Z) (e10 : Z) : number :=
  match m with
  | Zpos p =>
      if 0 <=? e10
      then binary_normalize prec emax (signed neg (p * Z.to_pos (10 ^ e10))) 0 false
      else div (S754_finite neg p 0)
               (S754_finite false (Z.to_pos (10 ^ (- e10))) 0)
  | _ => S754_zero neg
  end.

(** *** [Number(string)]: StringToNumber *)

Fixpoint skip_spaces (s : string) : string :=
  match s with
  | String c s' => if is_space c then skip_spaces s' else s
  | EmptyString => s
  end.

Fixpoint drop_trailing_spaces (s : string) : string :=
  match s with
  | EmptyString => EmptyString
  | String c s' =>
      match drop_trailing_spaces s' with
      | EmptyString => if is_space c then EmptyString else String c EmptyString
      | t => String c t
      end
  end.

(** TrimString, both ends. *)
Definition trim (s : string) : string := drop_trailing_spaces (skip_spaces s).

(** The longest prefix of decimal digits, and what follows it. *)
Fixpoint span_digits (s : string) : string * string :=
  match s with
  | String c s' =>
      if is_digit c
      then let '(ds, rest) := span_digits s' in (String c ds, rest)
      else (EmptyString, s)
  | EmptyString => (EmptyString, EmptyString)
  end.

(** The mathematical value of a run of decimal digits. *)
Fixpoint digits_value_from (acc : Z) (ds : string) : Z :=
  match ds with
  | String c ds' => digits_value_from (10 * acc + digit_val c) ds'
  | EmptyString => acc
  end.

Definition digits_value (ds : string) : Z := digits_value_from 0 ds.

Definition is_empty (s : string) : bool :=
  match s with EmptyString => true | _ => false end.

(** ExponentPart, optional, up to the end of the literal. *)
Definition parse_exponent (s : string) : option Z :=
  match s with
  | EmptyString => Some 0
  | String c r =>
      if (Ascii.eqb c "e" || Ascii.eqb c "E")%bool then
        let '(sg, r') :=
          match r with
          | String "+" r' => (false, r')
          | String "-" r' => (true, r')
          | _ => (false, r)
          end in
        let '(ds, rest) := span_digits r' in
        if (negb (is_empty ds) && is_empty rest)%bool
        then Some (if sg then - digits_value ds else digits_value ds)
        else None
      else None
  end.

(** StrUnsignedDecimalLiteral: [Infinity], [d+ . d* exp?], [. d+ exp?],
    [d+ exp?]. Anything else is NaN. *)
Definition parse_unsigned_decimal (neg : bool) (s : string) : number :=
  if String.eqb s "Infinity" then S754_infinity neg
  else
    let '(ip, r1) := span_digits s in
    let '(fp, r2, ok) :=
      match r1 with
      | String "." r =>
          let '(fp, r2) := span_digits r in
          (fp, r2, negb (is_empty ip && is_empty fp))
      | _ => (EmptyString, r1, negb (is_empty ip))
      end in
    if ok then
      match parse_exponent r2 with
      | Some e =>
          of_decimal neg (digits_value (ip ++ fp)) (e - Z.of_nat (String.length fp))
      | None => NaN
      end
    else NaN.

(** The value of a digit in radix 2, 8 or 16, when it is one. *)
Definition radix_digit (base : Z) (c : ascii) : option Z :=
  let n := Z.of_N (N_of_ascii c) in
  let v :=
    if (48 <=? n) && (n <=? 57) then Some (n - 48)
    else if (97 <=? n) && (n <=? 102) then Some (n - 87)
    else if (65 <=? n) && (n <=? 70) then Some (n - 55)
    else None in
  match v with
  | Some d => if d <? base then Some d else None
  | None => None
  end.

Fixpoint radix_value_from (base acc : Z) (s : string) : option Z :=
  match s with
  | EmptyString => Some acc
  | String c s' =>
      match radix_digit base c with
      | Some d => radix_value_from base (base * acc + d) s'
      | None => None
      end
  end.

(** NonDecimalIntegerLiteral: [0x], [0o], [0b] prefixes, unsigned. *)
Definition radix_prefix (s : string) : option (Z * string) :=
  match s with
  | String "0" (String c r) =>
      if (Ascii.eqb c "x" || Ascii.eqb c "X")%bool then Some (16, r)
      else if (Ascii.eqb c "o" || Ascii.eqb c "O")%bool then Some (8, r)
      else if (Ascii.eqb c "b" || Ascii.eqb c "B")%bool then Some (2, r)
      else None
  | _ => None
  end.

(** StringToNumber: white space is trimmed, the empty string is [+0], a
    string that is no StringNumericLiteral is NaN. *)
Definition StringToNumber (str : string) : number :=
  let s := trim str in
  if is_empty s then pos_zero
  else
    match radix_prefix s with
    | Some (base, r) =>
        if is_empty r then NaN
        else match radix_value_from base 0 r with
             | Some v => of_Z v
             | None => NaN
             end
    | None =>
        match s with
        | String "+" r => parse_unsigned_decimal false r
        | String "-" r => parse_unsigned_decimal true r
        | _ => parse_unsigned_decimal false s
        end
    end.

(** *** [String(number)]: Number::toString, radix 10 *)

(** The exact value of a positive finite number as a fraction. *)
Definition exact_fraction (m : positive) (e : Z) : Z * Z :=
  if 0 <=? e then (Z.pos m * 2 ^ e, 1) else (Z.pos m, 2 ^ (- e)).

(** The decimal exponent [n] of [num/den > 0]: [10^(n-1) <= num/den < 10^n]. *)
Fixpoint small_exponent (fuel : nat) (num den j : Z) : Z :=
  match fuel with
  | O => - j
  | S fuel' =>
      if den <=? num * 10 ^ (j + 1) then - j
      else small_exponent fuel' num den (j + 1)
  end.

Definition decimal_exponent (num den : Z) : Z :=
  if den <=? num
  then Z.of_nat (String.length (string_of_Z_nonneg (num / den)))
  else small_exponent 400 num den 0.

(** The candidates with [k] digits for [x = num/den], decimal exponent [n]:
    the integers [s] next to [num/den * 10^(k-n)] whose literal
    [s * 10^(n-k)] reads back as [x]; the closest one, the even one on a
    tie. The result is the pair [(s, n)], with [n] one higher when [s]
    carried into [10^k]. *)
Definition shortest_candidate (x : number) (num den n k : Z) : option (Z * Z) :=
  let '(a, b) :=
    if 0 <=? k - n then (num * 10 ^ (k - n), den) else (num, den * 10 ^ (n - k)) in
  let lo := a / b in
  let r := a mod b in
  let hi := lo + 1 in
  let reads_back s := match SFcompare (of_decimal false s (n - k)) x with
                      | Some Eq => true
                      | _ => false
                      end in
  let lo_ok := (10 ^ (k - 1) <=? lo) && reads_back lo in
  let hi_ok := reads_back hi in
  let hi_res := if hi =? 10 ^ k then (10 ^ (k - 1), n + 1) else (hi, n) in
  match lo_ok, hi_ok with
  | true, true =>
      match 2 * r ?= b with
      | Lt => Some (lo, n)
      | Gt => Some hi_res
      | Eq => if Z.even lo then Some (lo, n) else Some hi_res
      end
  | true, false => Some (lo, n)
  | false, true => Some hi_res
  | false, false => None
  end.

Fixpoint shortest_digits (fuel : nat) (x : number) (num den n k : Z) : Z * Z * Z :=
  match fuel with
  | O => (0, n, k)
  | S fuel' =>
      match shortest_candidate x num den n k with
      | Some (s, n') => (s, n', k)
      | None => shortest_digits fuel' x num den n (k + 1)
      end
  end.

(** Number::toString of a positive finite number [m * 2^e]. *)
Definition positive_to_string (m : positive) (e : Z) : string :=
  let '(num, den) := exact_fraction m e in
  let '(s, n, k) :=
    shortest_digits 17 (S754_finite false m e) num den (decimal_exponent num den) 1 in
  let ds := string_of_Z_nonneg s in
  if (k <=? n) && (n <=? 21) then
    ds ++ repeat_char "0" (Z.to_nat (n - k))
  else if (0 <? n) && (n <=? 21) then
    String.substring 0 (Z.to_nat n) ds ++ "." ++
    String.substring (Z.to_nat n) (Z.to_nat (k - n)) ds
  else if (-6 <? n) && (n <=? 0) then
    "0." ++ repeat_char "0" (Z.to_nat (- n)) ++ ds
  else
    let ex := n - 1 in
    let es := (if ex <? 0 then "-" else "+") ++ string_of_Z_nonneg (Z.abs ex) in
    if k =? 1 then ds ++ "e" ++ es
    else String.substring 0 1 ds ++ "." ++
         String.substring 1 (Z.to_nat (k - 1)) ds ++ "e" ++ es.

Definition Number_toString (x : number) : string :=
  match x with
  | S754_nan => "NaN"
  | S754_zero _ => "0"
  | S754_infinity s => if s then "-Infinity" else "Infinity"
  | S754_finite s m e =>
      (if s then "-" else "") ++ positive_to_string m e
  end.

(** *** [Number.prototype.toFixed] *)

(** The integer [n] for which [n / 10^fd - x] is closest to zero, the
    larger one on a tie, for [x = m * 2^e >= 0]. *)
Definition fixed_scaled (m : Z) (e : Z) (fd : Z) : Z :=
  if 0 <=? e then m * 2 ^ e * 10 ^ fd
  else Z.shiftr (2 * m * 10 ^ fd + 2 ^ (- e)) (1 - e).

(** The digits of [n] with a point before the last [fd] ones, padded with
    zeros on the left to [fd + 1] digits. *)
Definition fixed_digits (n : Z) (fd : nat) : string :=
  let m := string_of_Z_nonneg n in
  let k := String.length m in
  let m' := if (k <=? fd)%nat then repeat_char "0" (fd + 1 - k) ++ m else m in
  let k' := String.length m' in
  match fd with
  | O => m'
  | _ => String.substring 0 (k' - fd) m' ++ "." ++ String.substring (k' - fd) fd m'
  end.

Definition toFixed (x : number) (fd : nat) : string :=
  match x with
  | S754_nan | S754_infinity _ => Number_toString x
  | S754_zero _ => fixed_digits 0 fd
  | S754_finite s m e =>
      (if s then "-" else "") ++
      (if le (of_Z (10 ^ 21)) (S754_finite false m e)
       then positive_to_string m e
       else fixed_digits (fixed_scaled (Z.pos m) e (Z.of_nat fd)) fd)
  end.

End JSNumber.

(* ===================================================================== *)
(** ** JSON payloads as JavaScript values *)

Module JS.
Import JSNumber.

(** What [res.json()] produces. The properties of an object are listed in
    the order [Object.keys] enumerates them. *)
Inductive json : Type :=
| JNull
| JBool (b : bool)
| JNum (x : number)
| JStr (s : string)
| JArr (items : list json)
| JObj (props : list (string * json)).

(** A JavaScript value as the code meets it: [None] is [undefined]. *)
Definition jsvalue : Type := option json.


(** ToBoolean. *)
Definition to_boolean (v : jsvalue) : bool :=
  match v with
  | None | Some JNull => false
  | Some (JBool b) => b
  | Some (JNum x) => truthy x
  | Some (JStr s) => negb (is_empty s)
  | Some (JArr _) | Some (JObj _) => true
  end.

(** [a || b]. *)
Definition or_else (a b : jsvalue) : jsvalue := if to_boolean a then a else b.

Fixpoint join_with (sep : string) (parts : list string) : string :=
  match parts with
  | [] => ""
  | [x] => x
  | x :: rest => x ++ sep ++ join_with sep rest
  end.

(** ToString: an array is its elements joined by commas ([null] elements
    are empty), a plain object is ["[object Object]"]. *)
Fixpoint json_to_string (v : json) : string :=
  match v with
  | JNull => "null"
  | JBool b => if b then "true" else "false"
  | JNum x => Number_toString x
  | JStr s => s
  | JArr items =>
      join_with ","
        (List.map (fun e => match e with JNull => "" | _ => json_to_string e end) items)
  | JObj _ => "[object Object]"
  end.

Definition ToString (v : jsvalue) : string :=
  match v with
  | None => "undefined"
  | Some j => json_to_string j
  end.

(** ToNumber, as called by [Number(v)]. *)
Definition ToNumber (v : jsvalue) : number :=
  match v with
  | None => NaN
  | Some JNull => pos_zero
  | Some (JBool b) => if b then of_Z 1 else pos_zero
  | Some (JNum x) => x
  | Some (JStr s) => StringToNumber s
  | Some (JArr _ as j) | Some (JObj _ as j) => StringToNumber (json_to_string j)
  end.

(** [typeof v === "string"] and [typeof v === "object"]. *)
Definition is_string (v : jsvalue) : bool :=
  match v with Some (JStr _) => true | _ => false end.

Definition typeof_object (v : jsvalue) : bool :=
  match v with
  | Some JNull | Some (JArr _) | Some (JObj _) => true
  | _ => false
  end.

Fixpoint assoc (k : string) (props : list (string * json)) : option json :=
  match props with
  | [] => None
  | (k', v) :: rest => if String.eqb k k' then Some v else assoc k rest
  end.

(** The array index a property name denotes, when it is a canonical one. *)
Definition array_index (k : string) : option nat :=
  let '(ds, rest) := span_digits k in
  if (negb (is_empty ds) && is_empty rest)%bool
  then let n := digits_value ds in
       if String.eqb (string_of_Z_nonneg n) k then Some (Z.to_nat n) else None
  else None.

(** [v?.[k]] on own properties: the entries of an object, the elements
    and the [length] of an array. Members inherited from a prototype
    ([constructor], [toString], ...) are functions and are not looked up:
    the keys here are currency codes and field names of the payloads. *)
Definition get (v : jsvalue) (k : string) : jsvalue :=
  match v with
  | Some (JObj props) => assoc k props
  | Some (JArr items) =>
      match array_index k with
      | Some i => nth_error items i
      | None =>
          if String.eqb k "length"
          then Some (JNum (of_Z (Z.of_nat (List.length items))))
          else None
      end
  | _ => None
  end.

(** [Object.keys(m)] of an object or an array. *)
Definition object_keys (v : json) : list string :=
  match v with
  | JObj props => List.map fst props
  | JArr items =>
      List.map (fun i => string_of_Z_nonneg (Z.of_nat i)) (seq 0 (List.length items))
  | _ => []
  end.

(** [String.prototype.replace(",", ".")]: the first comma only. *)
Fixpoint replace_first_comma (s : string) : string :=
  match s with
  | EmptyString => EmptyString
  | String c s' =>
      if Ascii.eqb c "," then String "." s' else String c (replace_first_comma s')
  end.

End JS.

(* ===================================================================== *)
(** ** Monetary aggregation *)

Module Money.
Import JSNumber JS.

(** [amountStrToCents] (app.js 401-405). *)
Definition amountStrToCents (amountStr : jsvalue) : number :=
  let n := StringToNumber
             (replace_first_comma (ToString (or_else amountStr (Some (JStr "0"))))) in
  if negb (isFinite n) then pos_zero
  else Math_round (mul n (of_Z 100)).

(** [centsToAmountStr] (app.js 407-409); [cents] is a Number at every
    call site, so [Number(cents || 0)] is [cents], or [0] when it is falsy. *)
Definition centsToAmountStr (cents : number) : string :=
  toFixed (div (if truthy cents then cents else pos_zero) (of_Z 100)) 2.

(** [formatCentsNumber] (app.js 85-87). *)
Definition formatCentsNumber (cents : jsvalue) : string :=
  toFixed (div (ToNumber cents) (of_Z 100)) 2.

(** The number [formatMoney] (app.js 71-83) hands to [Intl.NumberFormat]. *)
Definition formatMoney_value (amountStr : jsvalue) : number :=
  let n := StringToNumber
             (replace_first_comma (ToString (or_else amountStr (Some (JStr "0"))))) in
  if isFinite n then n else pos_zero.

(** The first loop of [pickCurrency]: some map is an object with an [EUR]
    entry. *)
Fixpoint has_EUR (maps : list jsvalue) : bool :=
  match maps with
  | [] => false
  | m :: rest =>
      if (to_boolean m && typeof_object m)%bool then
        match get m "EUR" with
        | Some _ => true
        | None => has_EUR rest
        end
      else has_EUR rest
  end.

(** The second loop: the first key of the first object that has keys. *)
Fixpoint first_key (maps : list jsvalue) : option string :=
  match maps with
  | [] => None
  | m :: rest =>
      if (to_boolean m && typeof_object m)%bool then
        match m with
        | Some j =>
            match object_keys j with
            | k :: _ => Some k
            | [] => first_key rest
            end
        | None => first_key rest
        end
      else first_key rest
  end.

(** [pickCurrency] (app.js 411-422). *)
Definition pickCurrency (maps : list jsvalue) : string :=
  if has_EUR maps then "EUR"
  else match first_key maps with
       | Some k => k
       | None => "EUR"
       end.

(** The figures [renderDashboard] (app.js 439-458) derives from its data. *)
Record figures : Type := {
  currency : string;
  bankCents : number;
  incomeCents : number;
  expensesCents : number;
  beneficioCents : number;
  progressPct : number;
}.

(** [bankCents] (app.js 452-453). *)
Definition bankCents_of (bankMap : jsvalue) (currency : string) : number :=
  if is_string (get bankMap currency)
  then amountStrToCents (get bankMap currency)
  else ToNumber (or_else (get bankMap currency) (Some (JNum pos_zero))).

(** [beneficioCents] (app.js 456). *)
Definition profit (incomeCents expensesCents : number) : number :=
  sub incomeCents expensesCents.

(** [progressPct] (app.js 458). *)
Definition progressRatio (incomeCents expensesCents : number) : number :=
  if gt incomeCents pos_zero
  then Math_max pos_zero
         (Math_min (of_Z 100) (Math_round (mul (div expensesCents incomeCents) (of_Z 100))))
  else pos_zero.

Definition empty_object : jsvalue := Some (JObj []).

(** [bankMap], [incomeMap], [expensesMap] (app.js 440-449). *)
Definition dashboard_maps (data : jsvalue) : jsvalue * jsvalue * jsvalue :=
  let bootstrap := or_else (or_else (get data "bootstrap") data) empty_object in
  let report := or_else (get data "report") (Some JNull) in
  let bankMap :=
    or_else (or_else (get report "bankBalanceByCurrency")
                     (get (get bootstrap "bank") "balanceByCurrency"))
            empty_object in
  let incomeMap := or_else (get report "incomeNetByCurrency") empty_object in
  let expensesMap := or_else (get report "expensesByCurrency") empty_object in
  (bankMap, incomeMap, expensesMap).

Definition dashboard_figures (data : jsvalue) : figures :=
  let '(bankMap, incomeMap, expensesMap) := dashboard_maps data in
  let currency := pickCurrency [bankMap; incomeMap; expensesMap] in
  let incomeCents := amountStrToCents (or_else (get incomeMap currency) (Some (JStr "0"))) in
  let expensesCents := amountStrToCents (or_else (get expensesMap currency) (Some (JStr "0"))) in
  {| currency := currency;
     bankCents := bankCents_of bankMap currency;
     incomeCents := incomeCents;
     expensesCents := expensesCents;
     beneficioCents := profit incomeCents expensesCents;
     progressPct := progressRatio incomeCents expensesCents |}.

(** The amount string of the "En Banco" card (app.js 465), the argument
    of [formatMoney]. *)
Definition bank_amount (data : jsvalue) : string :=
  centsToAmountStr (bankCents (dashboard_figures data)).

End Money.

(* ===================================================================== *)
(** ** Results of fallible code *)

Module Outcome.

(** What an [async] function settles to: a value, or a thrown [Error]
    identified by its [message]. *)
Inductive result (A : Type) : Type :=
| Ok (a : A)
| Throw (message : string).

Arguments Ok {A} a.
Arguments Throw {A} message.

Definition is_ok {A} (r : result A) : bool :=
  match r with Ok _ => true | Throw _ => false end.

(** [try { body } catch (e) { handler e }] on pure results. *)
Definition catch {A} (body : result A) (handler : string -> result A) : result A :=
  match body with
  | Ok a => Ok a
  | Throw e => handler e
  end.

Definition and_then {A B} (r : result A) (k : A -> result B) : result B :=
  match r with
  | Ok a => k a
  | Throw e => Throw e
  end.

End Outcome.

(* ===================================================================== *)
(** ** Durable cache store (app.js 1-45) *)

Module CacheStore.
Import JSNumber JS Outcome.

(** A row of the object store ["cache"], key path ["key"]. *)
Record entry : Type := {
  key : string;
  data : json;
  updatedAt : Z;
}.

(** The object store: at most one row per key. *)
Abbreviation store := (gmap string entry).

(** How IndexedDB behaves during one cache operation. Each step either
    succeeds or fails with an error: [indexedDB.open] (the request fires
    [onerror], or the call itself throws), [db.transaction] and
    [tx.objectStore] (they throw), the [get] or [put] request (it throws,
    or its request fires [onerror]), and the completion of a read-write
    transaction ([oncomplete] against [onerror]). *)
Inductive step : Type :=
| Succeeds
| Fails (error : string).

Record idb : Type := {
  open_step : step;
  transaction_step : step;
  request_step : step;
  commit_step : step;
}.

Definition run_step (s : step) : result unit :=
  match s with
  | Succeeds => Ok tt
  | Fails e => Throw e
  end.

(** No step fails. *)
Definition healthy (i : idb) : bool :=
  match open_step i, transaction_step i, request_step i, commit_step i with
  | Succeeds, Succeeds, Succeeds, Succeeds => true
  | _, _, _, _ => false
  end.

(** No step of a read fails. *)
Definition readable (i : idb) : bool :=
  match open_step i, transaction_step i, request_step i with
  | Succeeds, Succeeds, Succeeds => true
  | _, _, _ => false
  end.

(** [openCacheDb] (app.js 5-17): the promise resolves on [onsuccess] and
    rejects on [onerror]. *)
Definition openCacheDb (i : idb) : result unit := run_step (open_step i).

(** [req.result?.data ?? null] (app.js 26). *)
Definition row_data (row : option entry) : json :=
  match row with
  | Some e => data e
  | None => JNull
  end.

(** [cacheGet] (app.js 19-32). *)
Definition cacheGet (i : idb) (s : store) (k : string) : result json :=
  catch
    (and_then (openCacheDb i) (fun _ =>
     and_then (run_step (transaction_step i)) (fun _ =>
     and_then (run_step (request_step i)) (fun _ =>
     Ok (row_data (s !! k))))))
    (fun _ => Ok JNull).

(** The body of the [try] block of [cacheSet]: the row is in the store
    once the transaction completes; a transaction that fails leaves the
    store as it was. [now] is [Date.now()]. *)
Definition put_row (i : idb) (now : Z) (s : store) (k : string) (d : json)
  : result unit * store :=
  let attempt :=
    and_then (openCacheDb i) (fun _ =>
    and_then (run_step (transaction_step i)) (fun _ =>
    and_then (run_step (request_step i)) (fun _ =>
    run_step (commit_step i)))) in
  match attempt with
  | Ok _ => (Ok tt, <[k := {| key := k; data := d; updatedAt := now |}]> s)
  | Throw e => (Throw e, s)
  end.

(** [cacheSet] (app.js 34-45). *)
Definition cacheSet (i : idb) (now : Z) (s : store) (k : string) (d : json)
  : result unit * store :=
  let '(r, s') := put_row i now s k d in
  (catch r (fun _ => Ok tt), s').

End CacheStore.

(* ===================================================================== *)
(** ** The client: effects *)

Module App.
Import JSNumber JS Outcome.

(** A call of [fetch]: [body] is the payload handed to [JSON.stringify]. *)
Record request : Type := {
  method : string;
  url : string;
  body : option json;
}.

Definition GET (u : string) : request :=
  {| method := "GET"; url := u; body := None |}.

Definition POST (u : string) (payload : json) : request :=
  {| method := "POST"; url := u; body := Some payload |}.

(** What the transport answers: the [fetch] promise rejects (network
    unreachable, or aborted by the 12 s timer), or a response arrives with
    its [ok] flag, status code and body ([None]: the body is no JSON). *)
Inductive transport : Type :=
| NetworkError (message : string)
| Response (ok : bool) (status : Z) (body : option json).

(** The effects a run leaves behind, oldest first. *)
Inductive event : Type :=
| Requested (r : request)
| CacheRead (k : string)
| CacheWritten (k : string) (d : json)
| Confirmed (message : string) (answer : bool)
| Alerted (message : string)
| Reloaded.

(** What one payments box of the debts table shows. *)
Inductive box : Type :=
| BoxText (text : string)
| BoxPayments (payments : jsvalue).

(** The content area of the reports view. *)
Inductive report_content : Type :=
| ReportBlank
| ReportLoading
| ReportAlert (message : string)
| ReportTables (report : json).

(** What a root element shows. Each constructor is one [render] call of
    the code with the data it was given; the render functions are total
    DOM writers here, the payloads having the shape they iterate over. *)
Inductive node : Type :=
| Loading
| Alert (message : string)
| DashboardCards (data : json) (closeDisabled : bool)
| AdminPanel (users logs : jsvalue)
| CompaniesPanel (companies : jsvalue) (status : string)
| WorkEntriesPanel (entries companies : jsvalue) (status : string)
| ExpenseFormPanel (status : string)
| ExpensesTable (expenses : jsvalue)
| BankTags (balanceByCurrency : jsvalue)
| MovementsTable (movements : jsvalue)
| MonthClosePanel (status : string)
| DebtFormPanel (status : string)
| DebtsTable (debts : jsvalue) (shown : gset nat) (boxes : gmap nat box)
| ReportsPanel (premium : bool) (status : string) (content : report_content).

(** The state the code reads and writes. [epoch] counts the renders of
    each root: a handler that holds an element of an earlier render writes
    to a detached element, which the screen does not show. *)
Record world : Type := {
  store : gmap string CacheStore.entry;
  screen : gmap string node;
  epoch : gmap string nat;
  history : list event;
  CURRENT_USER : jsvalue;
}.

(** The environment: the page, the clock, the server, the storage engine
    and the user in front of the dialogs. Each answer may depend on
    everything that happened before. *)
Record env : Type := {
  present : string -> bool;
  year : Z;
  month : Z;
  now : list event -> Z;
  network : list event -> request -> transport;
  storage : list event -> CacheStore.idb;
  dialogs : list event -> string -> bool;
  second_rejects_first : list event -> bool;
}.

(** Programs: state passing with exceptions. *)
Definition M (A : Type) : Type := world -> result A * world.

Definition ret {A} (a : A) : M A := fun w => (Ok a, w).

Definition throw {A} (e : string) : M A := fun w => (Throw e, w).

Definition bind {A B} (m : M A) (k : A -> M B) : M B :=
  fun w =>
    match m w with
    | (Ok a, w') => k a w'
    | (Throw e, w') => (Throw e, w')
    end.

(** [try { body } catch (e) { handler e }]. *)
Definition try_catch {A} (body : M A) (handler : string -> M A) : M A :=
  fun w =>
    match body w with
    | (Ok a, w') => (Ok a, w')
    | (Throw e, w') => handler e w'
    end.

Notation "'do' x <- m ; k" := (bind m (fun x => k))
  (at level 10, x name, m at level 100, k at level 200).
Notation "'do' ' p <- m ; k" := (bind m (fun x => let 'p := x in k))
  (at level 10, p pattern, m at level 100, k at level 200).
Notation "'run' m ; k" := (bind m (fun _ => k))
  (at level 10, m at level 100, k at level 200).

Definition record (ev : event) : M unit :=
  fun w => (Ok tt, {| store := store w; screen := screen w; epoch := epoch w;
                      history := history w ++ [ev];
                      CURRENT_USER := CURRENT_USER w |}).

Definition set_store (s : gmap string CacheStore.entry) : M unit :=
  fun w => (Ok tt, {| store := s; screen := screen w; epoch := epoch w;
                      history := history w; CURRENT_USER := CURRENT_USER w |}).

Definition set_screen (s : gmap string node) : M unit :=
  fun w => (Ok tt, {| store := store w; screen := s; epoch := epoch w;
                      history := history w; CURRENT_USER := CURRENT_USER w |}).

Definition set_epoch (e : gmap string nat) : M unit :=
  fun w => (Ok tt, {| store := store w; screen := screen w; epoch := e;
                      history := history w; CURRENT_USER := CURRENT_USER w |}).

Definition set_user (u : jsvalue) : M unit :=
  fun w => (Ok tt, {| store := store w; screen := screen w; epoch := epoch w;
                      history := history w; CURRENT_USER := u |}).

Definition get_world : M world := fun w => (Ok w, w).

Definition lift {A} (r : result A) : M A := fun w => (r, w).

Definition epoch_of (sel : string) : M nat :=
  do w <- get_world; ret (default O (epoch w !! sel)).

(** [render(root, children)] on the root selected by [sel]: new elements
    replace whatever the root showed. *)
Definition render (sel : string) (n : node) : M unit :=
  do w <- get_world;
  run set_screen (<[sel := n]> (screen w));
  set_epoch (<[sel := S (default O (epoch w !! sel))]> (epoch w)).

(** A write to an element created by render number [g] of the root: it
    shows only while that render is still the one on screen. *)
Definition update (sel : string) (g : nat) (f : node -> node) : M unit :=
  do w <- get_world;
  match screen w !! sel with
  | Some n =>
      if Nat.eqb (default O (epoch w !! sel)) g
      then set_screen (<[sel := f n]> (screen w))
      else ret tt
  | None => ret tt
  end.

(** [status.textContent = text] on the panels that have a status line. *)
Definition with_status (text : string) (n : node) : node :=
  match n with
  | CompaniesPanel c _ => CompaniesPanel c text
  | WorkEntriesPanel e c _ => WorkEntriesPanel e c text
  | ExpenseFormPanel _ => ExpenseFormPanel text
  | MonthClosePanel _ => MonthClosePanel text
  | DebtFormPanel _ => DebtFormPanel text
  | ReportsPanel p _ c => ReportsPanel p text c
  | _ => n
  end.

Section WithEnv.
Variable E : env.

(** [cacheGet] and [cacheSet] against the storage engine of the moment. *)
Definition cacheGet (k : string) : M json :=
  do w <- get_world;
  run record (CacheRead k);
  lift (CacheStore.cacheGet (storage E (history w)) (store w) k).

Definition cacheSet (k : string) (d : json) : M unit :=
  do w <- get_world;
  run record (CacheWritten k d);
  let '(r, s') :=
    CacheStore.cacheSet (storage E (history w)) (now E (history w)) (store w) k d in
  run set_store s';
  lift r.

(** The message of [new Error(v || fallback)]. *)
Definition error_message (v : jsvalue) (fallback : string) : string :=
  if to_boolean v then ToString v else fallback.

(** [json.ok === false]. *)
Definition ok_is_false (j : json) : bool :=
  match get (Some j) "ok" with
  | Some (JBool false) => true
  | _ => false
  end.

(** What [fetchJson] makes of the transport's answer (app.js 119-125):
    transport failures, error statuses and payloads with [ok: false] all
    become one thrown [Error]; a body that is no JSON reads as [null]. *)
Definition fetch_outcome (t : transport) : result json :=
  match t with
  | NetworkError e => Throw e
  | Response ok status b =>
      let j := match b with Some j => j | None => JNull end in
      if negb ok
      then Throw (error_message (get (Some j) "error") ("Error " ++ string_of_Z status))
      else if (to_boolean (Some j) && ok_is_false j)%bool
      then Throw (error_message (get (Some j) "error") "Error")
      else Ok j
  end.

(** [fetchJson] (app.js 110-129). *)
Definition fetchJson (r : request) : M json :=
  do w <- get_world;
  run record (Requested r);
  lift (fetch_outcome (network E (history w) r)).

(** [Promise.all] of two calls: both are issued; the pair is there when
    both resolve, and the first rejection to arrive is thrown. *)
Definition all2 {A B} (a : M A) (b : M B) : M (A * B) :=
  fun w =>
    let '(ra, w1) := a w in
    let '(rb, w2) := b w1 in
    match ra, rb with
    | Ok x, Ok y => (Ok (x, y), w2)
    | Throw e, Ok _ => (Throw e, w2)
    | Ok _, Throw e => (Throw e, w2)
    | Throw e1, Throw e2 =>
        (Throw (if second_rejects_first E (history w) then e2 else e1), w2)
    end.

(** [confirm(message)]. *)
Definition confirm (message : string) : M bool :=
  do w <- get_world;
  let answer := dialogs E (history w) message in
  run record (Confirmed message answer);
  ret answer.

Definition o_acute : string := String (ascii_of_nat 243) "".
Definition inverted_question : string := String (ascii_of_nat 191) "".

Definition final_confirmation : string :=
  "Confirmaci" ++ o_acute ++ "n final: " ++ inverted_question ++ "seguro?".

(** [doubleConfirm] (app.js 203-206). *)
Definition doubleConfirm (message : string) : M bool :=
  do first <- confirm message;
  if negb first then ret false
  else confirm final_confirmation.

(** [if (!root) return;] for the roots a view needs. *)
Definition when_present (sels : list string) (body : M unit) : M unit :=
  if forallb (present E) sels then body else ret tt.

(** [ROLE_LEVEL] and [roleLevel] (app.js 89-101). *)
Definition ROLE_LEVEL : list (string * Z) :=
  [("ROLE_FREE", 10); ("ROLE_PREMIUM", 20); ("ROLE_ADMIN", 30);
   ("ROLE_SUPER_ADMIN", 40); ("ROLE_OWNER", 50)].

Fixpoint level_of (table : list (string * Z)) (role : string) : Z :=
  match table with
  | [] => 0
  | (r, l) :: rest => if String.eqb r role then l else level_of rest role
  end.

Definition roleLevel (role : jsvalue) : Z :=
  level_of ROLE_LEVEL (ToString (or_else role (Some (JStr "")))).

(** [monthLabelEs] (app.js 395-399), for an integer month. *)
Definition month_names : list string :=
  ["Ene"; "Feb"; "Mar"; "Abr"; "May"; "Jun"; "Jul"; "Ago"; "Sep"; "Oct"; "Nov"; "Dic"].

Definition monthLabelEs (y m : Z) : string :=
  nth (Z.to_nat (Z.max 1 (Z.min 12 m) - 1)) month_names "" ++ " " ++ string_of_Z y.

(** The cache keys (app.js 184, 434, 1185). *)
Definition dashboard_key : string :=
  "dashboard:" ++ string_of_Z (year E) ++ "-" ++ string_of_Z (month E).

(** [String(m).padStart(2, "0")]. *)
Definition pad2 (s : string) : string :=
  repeat_char "0" (2 - String.length s) ++ s.

Definition report_key (y m : number) : string :=
  "report:" ++ Number_toString y ++ "-" ++ pad2 (Number_toString m).

Definition monthly_report_url : string :=
  "/api/reports/monthly?year=" ++ string_of_Z (year E) ++
  "&month=" ++ string_of_Z (month E).

(** *** Dashboard (app.js 179-201, 424-508) *)

Definition dashboard_root : string := "#dashboard-root".

(** [renderDashboard]: the cards of [data]; the close button is disabled
    when the report says the month is closed. *)
Definition renderDashboard (data : json) : M unit :=
  render dashboard_root
    (DashboardCards data
       (to_boolean (get (or_else (get (Some data) "report") (Some JNull)) "isClosed"))).

Definition fetch_dashboard : M (json * json) :=
  all2 (fetchJson (GET "/api/bootstrap")) (fetchJson (GET monthly_report_url)).

Definition fresh_dashboard (bootstrap report : json) : json :=
  JObj [("bootstrap", bootstrap); ("report", report)].

(** The cache read and the stale render of [initDashboard] (184-187). *)
Definition dashboard_stale : M json :=
  do cached <- cacheGet dashboard_key;
  run (if to_boolean (get (Some cached) "bootstrap")
       then renderDashboard cached
       else render dashboard_root Loading);
  ret cached.

(** The fetch, the cache writes and the fresh render, or the failure
    state (189-200). *)
Definition dashboard_fresh (cached : json) : M unit :=
  try_catch
    (do '(bootstrap, report) <- fetch_dashboard;
     let fresh := fresh_dashboard bootstrap report in
     run cacheSet "bootstrap" bootstrap;
     run cacheSet dashboard_key fresh;
     renderDashboard fresh)
    (fun e =>
       if negb (to_boolean (Some cached))
       then render dashboard_root (Alert e)
       else ret tt).

Definition initDashboard : M unit :=
  when_present [dashboard_root] (
    do cached <- dashboard_stale;
    dashboard_fresh cached).

Definition close_month_question : string :=
  inverted_question ++ "Cerrar el mes " ++ monthLabelEs (year E) (month E) ++ "?".

Definition year_month_payload (y m : number) : json :=
  JObj [("year", JNum y); ("month", JNum m)].

(** [closeCurrentMonthAndRefresh] (app.js 424-437). *)
Definition closeCurrentMonthAndRefresh : M unit :=
  do go <- doubleConfirm close_month_question;
  if negb go then ret tt
  else
    run fetchJson (POST "/api/months/close"
                     (year_month_payload (of_Z (year E)) (of_Z (month E))));
    do '(bootstrap, report) <- fetch_dashboard;
    let fresh := fresh_dashboard bootstrap report in
    run cacheSet "bootstrap" bootstrap;
    run cacheSet dashboard_key fresh;
    do bank <- fetchJson (GET "/api/bank/summary");
    run cacheSet "bankSummary" bank;
    renderDashboard fresh.

Definition with_close_disabled (b : bool) (n : node) : node :=
  match n with
  | DashboardCards d _ => DashboardCards d b
  | _ => n
  end.

(** The click handler of the close button (app.js 490-498). *)
Definition click_close_month : M unit :=
  do g <- epoch_of dashboard_root;
  try_catch
    (run update dashboard_root g (with_close_disabled true);
     closeCurrentMonthAndRefresh)
    (fun e =>
       run update dashboard_root g (with_close_disabled false);
       record (Alerted e)).

(** *** Administration (app.js 208-393) *)

Definition admin_root : string := "#admin-root".

Definition empty_array : jsvalue := Some (JArr []).

(** [refresh] and [renderAdmin] (app.js 219-226, 389). *)
Definition refresh_admin : M unit :=
  do usersRes <- fetchJson (GET "/api/admin/users");
  do w <- get_world;
  do logsRes <-
    (if 40 <=? roleLevel (get (CURRENT_USER w) "role")
     then fetchJson (GET "/api/admin/audit")
     else ret JNull);
  render admin_root
    (AdminPanel (or_else (get (Some usersRes) "users") empty_array)
                (or_else (get (Some logsRes) "logs") empty_array)).

Definition initAdmin : M unit :=
  when_present [admin_root] (
    run render admin_root Loading;
    run try_catch
      (do w <- get_world;
       do me <- (if to_boolean (CURRENT_USER w)
                 then ret (Some (JObj (match CURRENT_USER w with
                                        | Some u => [("user", u)]
                                        | None => []
                                        end)))
                 else do j <- fetchJson (GET "/api/me"); ret (Some j));
       set_user (or_else (get me "user") (CURRENT_USER w)))
      (fun _ => ret tt);
    refresh_admin).

Definition user_url (u : json) (action : string) : string :=
  "/api/admin/users/" ++ ToString (get (Some u) "id") ++ "/" ++ action.

Definition email_of (u : json) : string := ToString (get (Some u) "email").

(** The [change] handler of the plan select (app.js 244-254). *)
Definition change_plan (u : json) (value : string) : M unit :=
  do go <- doubleConfirm ("Cambiar plan de " ++ email_of u ++ " a " ++ value ++ "?");
  if negb go then ret tt
  else
    run fetchJson (POST (user_url u "set-plan") (JObj [("role", JStr value)]));
    refresh_admin.

(** The [change] handler of the active checkbox (app.js 259-269). *)
Definition change_active (u : json) (checked : bool) : M unit :=
  do go <- doubleConfirm ((if checked then "Activar" else "Suspender") ++
                          " a " ++ email_of u ++ "?");
  if negb go then ret tt
  else
    run fetchJson (POST (user_url u "suspend") (JObj [("isActive", JBool checked)]));
    refresh_admin.

(** The [change] handler of the role select (app.js 283-293). *)
Definition change_role (u : json) (value : string) : M unit :=
  do go <- doubleConfirm ("Cambiar rol de " ++ email_of u ++ " a " ++ value ++ "?");
  if negb go then ret tt
  else
    run fetchJson (POST (user_url u "set-role") (JObj [("role", JStr value)]));
    refresh_admin.

(** The [click] handler of the soft-delete button (app.js 300-304). *)
Definition click_soft_delete (u : json) : M unit :=
  do go <- doubleConfirm ("Soft delete de " ++ email_of u ++
                          "? Mantiene datos y bloquea login.");
  if negb go then ret tt
  else
    run fetchJson (POST (user_url u "soft-delete") (JObj []));
    refresh_admin.

(** The [click] handler of the recover button (app.js 311-315). *)
Definition click_recover (u : json) : M unit :=
  do go <- doubleConfirm ("Recuperar cuenta " ++ email_of u ++ "?");
  if negb go then ret tt
  else
    run fetchJson (POST (user_url u "recover") (JObj []));
    refresh_admin.

(** The [click] handler of the claim button (app.js 353-361). *)
Definition click_claim_owner (token : string) : M unit :=
  do go <- doubleConfirm "Convertir esta cuenta en OWNER?";
  if negb go then ret tt
  else
    run fetchJson (POST "/api/admin/bootstrap/claim-owner" (JObj [("token", JStr token)]));
    record Reloaded.

(** *** Companies and work entries (app.js 528-735) *)

Definition companies_root : string := "#companies-root".
Definition entries_root : string := "#work-entries-root".

Definition renderCompanies (companies : jsvalue) : M unit :=
  render companies_root (CompaniesPanel companies "").

Definition renderWorkEntries (entries companies : jsvalue) : M unit :=
  render entries_root (WorkEntriesPanel entries companies "").

(** The cache reads and stale renders (533-537). *)
Definition companies_stale : M (json * json) :=
  do cachedCompanies <- cacheGet "companies";
  run (if to_boolean (get (Some cachedCompanies) "companies")
       then renderCompanies (get (Some cachedCompanies) "companies")
       else ret tt);
  do cachedEntries <- cacheGet "workEntries";
  run (if to_boolean (get (Some cachedEntries) "entries")
       then renderWorkEntries (get (Some cachedEntries) "entries")
              (or_else (get (Some cachedCompanies) "companies") empty_array)
       else ret tt);
  ret (cachedCompanies, cachedEntries).

(** The two fetches in sequence, or the failure states (539-550). *)
Definition companies_fresh (cachedCompanies cachedEntries : json) : M unit :=
  try_catch
    (do companies <- fetchJson (GET "/api/companies");
     run cacheSet "companies" companies;
     run renderCompanies (get (Some companies) "companies");
     do entries <- fetchJson (GET "/api/work-entries");
     run cacheSet "workEntries" entries;
     renderWorkEntries (get (Some entries) "entries") (get (Some companies) "companies"))
    (fun e =>
       run (if negb (to_boolean (Some cachedCompanies))
            then render companies_root (Alert e) else ret tt);
       if negb (to_boolean (Some cachedEntries))
       then render entries_root (Alert e) else ret tt).

Definition initCompaniesAndWorkEntries : M unit :=
  when_present [companies_root; entries_root] (
    do '(cachedCompanies, cachedEntries) <- companies_stale;
    companies_fresh cachedCompanies cachedEntries).




(** *** Expenses (app.js 737-849) *)

Definition expense_form_root : string := "#expense-form-root".
Definition expenses_root : string := "#expenses-root".
Definition bank_balance_root : string := "#bank-balance-root".
Definition bank_movements_root : string := "#bank-movements-root".
Definition month_close_root : string := "#month-close-root".

Definition renderExpenses (expenses : jsvalue) : M unit :=
  render expenses_root (ExpensesTable expenses).

Definition renderBankBalance (balanceByCurrency : jsvalue) : M unit :=
  render bank_balance_root (BankTags balanceByCurrency).

Definition renderBankMovements (movements : jsvalue) : M unit :=
  render bank_movements_root (MovementsTable movements).


(** The cache read, the stale render and the form (742-749). *)
Definition expenses_stale : M json :=
  do cached <- cacheGet "expenses";
  run (if to_boolean (get (Some cached) "expenses")
       then renderExpenses (get (Some cached) "expenses")
       else ret tt);
  run render expense_form_root (ExpenseFormPanel "");
  ret cached.

(** The fetch and the fresh render, or the failure state (751-757). *)
Definition expenses_fresh (cached : json) : M unit :=
  try_catch
    (do fresh <- fetchJson (GET "/api/expenses");
     run cacheSet "expenses" fresh;
     renderExpenses (get (Some fresh) "expenses"))
    (fun e =>
       if negb (to_boolean (Some cached))
       then render expenses_root (Alert e)
       else ret tt).

Definition initExpenses : M unit :=
  when_present [expense_form_root; expenses_root] (
    do cached <- expenses_stale;
    expenses_fresh cached).


(** *** Bank (app.js 851-949) *)

(** The cache read, the stale render or the placeholder, and the
    month-close form (857-865). *)
Definition bank_stale : M json :=
  do cached <- cacheGet "bankSummary";
  run (if to_boolean (get (Some cached) "balanceByCurrency")
       then run renderBankBalance (get (Some cached) "balanceByCurrency");
            renderBankMovements (or_else (get (Some cached) "movements") empty_array)
       else render bank_balance_root Loading);
  run render month_close_root (MonthClosePanel "");
  ret cached.

(** The fetch and the fresh render, or the failure state (867-874). *)
Definition bank_fresh (cached : json) : M unit :=
  try_catch
    (do fresh <- fetchJson (GET "/api/bank/summary");
     run cacheSet "bankSummary" fresh;
     run renderBankBalance (get (Some fresh) "balanceByCurrency");
     renderBankMovements (or_else (get (Some fresh) "movements") empty_array))
    (fun e =>
       if negb (to_boolean (Some cached))
       then render bank_balance_root (Alert e)
       else ret tt).

Definition initBank : M unit :=
  when_present [bank_balance_root; bank_movements_root; month_close_root] (
    do cached <- bank_stale;
    bank_fresh cached).

(** The [submit] handler of the month-close form (app.js 925-947); [y]
    and [m] are [Number(fd.get("year"))] and [Number(fd.get("month"))]. *)
Definition submit_month_close (y m : number) : M unit :=
  do g <- epoch_of month_close_root;
  run update month_close_root g (with_status "");
  try_catch
    (run fetchJson (POST "/api/months/close" (year_month_payload y m));
     do bank <- fetchJson (GET "/api/bank/summary");
     run cacheSet "bankSummary" bank;
     run (if (present E bank_balance_root && present E bank_movements_root)%bool
          then run renderBankBalance (get (Some bank) "balanceByCurrency");
               renderBankMovements (get (Some bank) "movements")
          else ret tt);
     update month_close_root g (with_status "Mes cerrado"))
    (fun e => update month_close_root g (with_status e)).

(** *** Debts (app.js 951-1103) *)

Definition debt_form_root : string := "#debt-form-root".
Definition debts_root : string := "#debts-root".

(** [renderDebts]: every payment form hidden, every payments box empty. *)
Definition renderDebts (debts : jsvalue) : M unit :=
  render debts_root (DebtsTable debts ∅ ∅).


(** The form, the cache read and the stale render (956-963). *)
Definition debts_stale : M json :=
  run render debt_form_root (DebtFormPanel "");
  do cached <- cacheGet "debts";
  run (if to_boolean (get (Some cached) "debts")
       then renderDebts (get (Some cached) "debts")
       else ret tt);
  ret cached.

(** The fetch and the fresh render, or the failure state (965-971). *)
Definition debts_fresh (cached : json) : M unit :=
  try_catch
    (do fresh <- fetchJson (GET "/api/debts");
     run cacheSet "debts" fresh;
     renderDebts (get (Some fresh) "debts"))
    (fun e =>
       if negb (to_boolean (Some cached))
       then render debts_root (Alert e)
       else ret tt).

Definition initDebts : M unit :=
  when_present [debt_form_root; debts_root] (
    do cached <- debts_stale;
    debts_fresh cached).










(** *** Reports (app.js 1105-1209) *)

Definition reports_root : string := "#reports-root".

Definition hex_digit (n : N) : ascii :=
  ascii_of_N (if (n <? 10)%N then n + 48 else n + 55)%N.

Definition percent (n : N) : string :=
  String "%" (String (hex_digit (n / 16)) (String (hex_digit (n mod 16)) "")).

(** The characters [encodeURIComponent] leaves alone. *)
Definition unreserved (c : ascii) : bool :=
  let n := N_of_ascii c in
  (((48 <=? n) && (n <=? 57)) || ((65 <=? n) && (n <=? 90)) ||
   ((97 <=? n) && (n <=? 122)) ||
   existsb (N.eqb n) [45; 95; 46; 33; 126; 42; 39; 40; 41])%N.

(** [encodeURIComponent]: the UTF-8 bytes of the other characters,
    percent-encoded. *)
Fixpoint encodeURIComponent (s : string) : string :=
  match s with
  | EmptyString => EmptyString
  | String c s' =>
      let n := N_of_ascii c in
      (if unreserved c then String c EmptyString
       else if (n <? 128)%N then percent n
       else percent (192 + n / 64) ++ percent (128 + n mod 64))
      ++ encodeURIComponent s'
  end.

Definition report_url (y m : number) : string :=
  "/api/reports/monthly?year=" ++ encodeURIComponent (Number_toString y) ++
  "&month=" ++ encodeURIComponent (Number_toString m).

Definition with_content (c : report_content) (n : node) : node :=
  match n with
  | ReportsPanel p s _ => ReportsPanel p s c
  | _ => n
  end.

(** The cache read and the stale render or the placeholder of
    [loadReport] (1185-1188); [g] is the render of the reports root that
    created [status] and [content]. *)
Definition report_stale (g : nat) (y m : number) : M json :=
  do cached <- cacheGet (report_key y m);
  run (if to_boolean (get (Some cached) "ok")
       then update reports_root g (with_content (ReportTables cached))
       else update reports_root g (with_content ReportLoading));
  ret cached.

(** The fetch and the fresh render, or the failure message (1189-1197). *)
Definition report_fresh (g : nat) (y m : number) (cached : json) : M unit :=
  try_catch
    (do fresh <- fetchJson (GET (report_url y m));
     run cacheSet (report_key y m) fresh;
     run update reports_root g (with_content (ReportTables fresh));
     update reports_root g
       (with_status (if to_boolean (get (Some fresh) "isClosed")
                     then "Mes cerrado" else "Mes abierto")))
    (fun e =>
       run update reports_root g (with_status e);
       if negb (to_boolean (Some cached))
       then update reports_root g (with_content (ReportAlert e))
       else ret tt).

(** [loadReport] (app.js 1184-1198). *)
Definition loadReport (g : nat) (y m : number) : M unit :=
  do cached <- report_stale g y m;
  report_fresh g y m cached.

Definition initReports : M unit :=
  when_present [reports_root] (
    do w <- get_world;
    run (if negb (to_boolean (CURRENT_USER w))
         then try_catch
                (do me <- fetchJson (GET "/api/me");
                 set_user (or_else (get (Some me) "user") (Some JNull)))
                (fun _ => ret tt)
         else ret tt);
    do w' <- get_world;
    let isPremium := 20 <=? roleLevel (get (CURRENT_USER w') "role") in
    run render reports_root (ReportsPanel isPremium "" ReportBlank);
    do g <- epoch_of reports_root;
    loadReport g (of_Z (year E)) (of_Z (month E))).



End WithEnv.

(** The keys handed to [cacheSet] during a run. *)
Definition written_keys (h : list event) : list string :=
  omap (fun ev => match ev with CacheWritten k _ => Some k | _ => None end) h.

(** The requests issued during a run. *)
Definition requests (h : list event) : list request :=
  omap (fun ev => match ev with Requested r => Some r | _ => None end) h.

(** The confirmation dialogs shown during a run, with their answers. *)
Definition confirmations (h : list event) : list (string * bool) :=
  omap (fun ev => match ev with Confirmed m a => Some (m, a) | _ => None end) h.

(** A run from [w]: the result and the final world. *)
Definition exec {A} (m : M A) (w : world) : world := snd (m w).

(** The empty page before anything ran. *)
Definition initial_world : world :=
  {| store := ∅; screen := ∅; epoch := ∅; history := []; CURRENT_USER := None |}.

End App.

(* ===================================================================== *)
(** ** The specification's reading of the monetary functions *)

Module MoneySpec.
Import JSNumber JS Money.

(** The currency codes of a map, in key order; a value that is no object
    has none. *)
Definition keys (m : jsvalue) : list string :=
  match m with
  | Some (JObj _ as j) | Some (JArr _ as j) => object_keys j
  | _ => []
  end.

Definition has_keys (m : jsvalue) : bool :=
  match keys m with [] => false | _ :: _ => true end.

(** [pickDisplayCurrency] after the specification's words: the canonical
    code when some map has it as a key; else the first key of the first
    non-empty map; else the canonical code. *)
Definition pickDisplayCurrency_spec (maps : list jsvalue) : string :=
  if existsb (fun m => existsb (String.eqb "EUR") (keys m)) maps then "EUR"
  else match List.find has_keys maps with
       | Some m => List.hd "EUR" (keys m)
       | None => "EUR"
       end.





(** *** Decimal strings *)

Inductive sign : Type := Unsigned | Plus | Minus.

Definition sign_text (s : sign) : string :=
  match s with Unsigned => "" | Plus => "+" | Minus => "-" end.


(** A decimal string: an optional sign, integer digits and, optionally,
    a separator followed by fraction digits. *)
Record decimal : Type := {
  d_sign : sign;
  d_int : string;
  d_frac : option (ascii * string);
}.




(** The string itself. *)
Definition text (d : decimal) : string :=
  sign_text (d_sign d) ++ d_int d ++
  match d_frac d with Some (c, f) => String c f | None => "" end.












(** A hair above one and a half cents over one unit. *)
Definition above_a_tie : decimal :=
  {| d_sign := Unsigned; d_int := "1";
     d_frac := Some ("."%char, "01500000000000001") |}.


(** The payload of a dashboard whose bank balance in [EUR] is [v]. *)
Definition dashboard_with_bank (v : json) : jsvalue :=
  Some (JObj [("bootstrap", JObj [("counts", JObj [])]);
              ("report", JObj [("bankBalanceByCurrency", JObj [("EUR", v)])])]).

End MoneySpec.

(* ===================================================================== *)
(** ** Vocabulary for the properties of the client *)

Module AppSpec.
Import JSNumber JS Outcome App.

(** What a program settles to from [w]. *)
Definition outcome {A} (m : M A) (w : world) : result A := fst (m w).

(** [w] after one more effect. *)
Definition logged (ev : event) (w : world) : world :=
  {| store := store w; screen := screen w; epoch := epoch w;
     history := history w ++ [ev]; CURRENT_USER := CURRENT_USER w |}.

(** [w] after [render(root, n)]. *)
Definition rendered (sel : string) (n : node) (w : world) : world :=
  {| store := store w; screen := <[sel := n]> (screen w);
     epoch := <[sel := S (default O (epoch w !! sel))]> (epoch w);
     history := history w; CURRENT_USER := CURRENT_USER w |}.

(** [w] after [cacheSet(k, d)]. *)
Definition written (E : env) (k : string) (d : json) (w : world) : world :=
  {| store := snd (CacheStore.cacheSet (storage E (history w)) (now E (history w))
                     (store w) k d);
     screen := screen w; epoch := epoch w;
     history := history w ++ [CacheWritten k d];
     CURRENT_USER := CURRENT_USER w |}.

(** Every effect a program adds to the history satisfies [Q]. *)
Definition emits {A} (Q : event -> Prop) (m : M A) : Prop :=
  forall w, exists evs, history (exec m w) = (history w ++ evs)%list /\ Forall Q evs.

(** An effect that is no cache write, or a write to a key in [P]. *)
Definition writes_in (P : string -> Prop) (ev : event) : Prop :=
  match ev with
  | CacheWritten k _ => P k
  | _ => True
  end.

(** An effect that is no confirmation dialog. *)
Definition no_dialog (ev : event) : Prop :=
  match ev with
  | Confirmed _ _ => False
  | _ => True
  end.









(** What the stale-while-revalidate protocol of a view does when its
    fetch fails: nothing is written to the cache; with a cached payload
    the screen stays as the stale phase left it, which is the stale
    render [shown cached] when the payload has the view's [field]; with
    no cached payload the root shows an alert with the message. *)
Definition failure_protocol {A} (E : env) (roots : list string)
    (init : M unit) (stale : M json) (fetch : M A)
    (root field : string) (shown : json -> node) : Prop :=
  forall (w : world) (cached : json) (msg : string),
    forallb (present E) roots = true ->
    outcome stale w = Ok cached ->
    outcome fetch (exec stale w) = Throw msg ->
    store (exec init w) = store w
    /\ written_keys (history (exec init w)) = written_keys (history w)
    /\ (to_boolean (get (Some cached) field) = true ->
        screen (exec stale w) !! root = Some (shown cached))
    /\ (to_boolean (Some cached) = true ->
        screen (exec init w) = screen (exec stale w))
    /\ (to_boolean (Some cached) = false ->
        screen (exec init w) !! root = Some (Alert msg)).







(** A child that [el] (app.js 51-64) accepts as text: a string, or
    [null] or [undefined], which it skips. Any other value goes to
    [appendChild], which throws. *)
Definition text_child (v : jsvalue) : bool :=
  match v with
  | None | Some JNull | Some (JStr _) => true
  | _ => false
  end.

(** A list a render function can walk: an array of objects whose
    [fields], the ones the function puts into table cells, are text
    children. *)
Definition rows (fields : list string) (v : jsvalue) : bool :=
  match v with
  | Some (JArr items) =>
      forallb (fun item =>
                 match item with
                 | JObj _ => forallb (fun f => text_child (get (Some item) f)) fields
                 | _ => false
                 end) items
  | _ => false
  end.

(** The lists [renderExpenses] (app.js 827-849), [renderDebts]
    (1013-1103), [renderCompanies] (553-640) and [renderBankMovements]
    (884-905) can walk; the last one shows [m.note || ""]. *)
Definition expense_rows : jsvalue -> bool := rows ["date"; "category"; "concept"].


Definition company_rows : jsvalue -> bool :=
  rows ["name"; "currency"; "precioHoraDia"; "precioHoraNoche"].



(** What the stale-while-revalidate protocol of a view does when its
    fetch succeeds, for payloads its render function accepts: the load
    settles, the payload is handed to the cache under the key of the
    view, where it is stored when the storage engine works and dropped
    when it does not, and the root shows the fresh payload either way. *)
Definition success_protocol (E : env) (roots : list string)
    (init : M unit) (stale : M json) (r : request)
    (key root field : string) (accepted : json -> bool) (shown : json -> node) : Prop :=
  forall (w : world) (cached fresh : json),
    forallb (present E) roots = true ->
    outcome stale w = Ok cached ->
    (to_boolean (get (Some cached) field) = true -> accepted cached = true) ->
    outcome (fetchJson E r) (exec stale w) = Ok fresh ->
    accepted fresh = true ->
    let h := (history (exec stale w) ++ [Requested r])%list in
    outcome init w = Ok tt
    /\ history (exec init w) = (h ++ [CacheWritten key fresh])%list
    /\ store (exec init w)
       = (if CacheStore.healthy (storage E h)
          then <[key := {| CacheStore.key := key; CacheStore.data := fresh;
                           CacheStore.updatedAt := now E h |}]> (store w)
          else store w)
    /\ screen (exec init w) !! root = Some (shown fresh).

(** A handler behind [doubleConfirm]: a cancelled first dialog ends the
    run; so does a cancelled second one; the request [r] follows two
    accepted dialogs, and no further dialog follows it. *)
Definition guarded (E : env) (question : string) (r : request) (m : M unit) : Prop :=
  question <> final_confirmation
  /\ forall w : world,
       let h := history w in
       (dialogs E h question = false ->
        history (exec m w) = (h ++ [Confirmed question false])%list)
       /\ (dialogs E h question = true ->
           dialogs E (h ++ [Confirmed question true]) final_confirmation = false ->
           history (exec m w)
           = (h ++ [Confirmed question true; Confirmed final_confirmation false])%list)
       /\ (dialogs E h question = true ->
           dialogs E (h ++ [Confirmed question true]) final_confirmation = true ->
           exists evs,
             history (exec m w)
             = (h ++ [Confirmed question true; Confirmed final_confirmation true;
                      Requested r] ++ evs)%list
             /\ Forall no_dialog evs).

(** A server that cannot be reached, a healthy storage engine, a page
    with every root, a user who cancels every dialog. *)
Definition offline : env :=
  {| present := fun _ => true;
     year := 2026;
     month := 11;
     now := fun _ => 1793620800000;
     network := fun _ _ => NetworkError "Failed to fetch";
     storage := fun _ =>
       {| CacheStore.open_step := CacheStore.Succeeds;
          CacheStore.transaction_step := CacheStore.Succeeds;
          CacheStore.request_step := CacheStore.Succeeds;
          CacheStore.commit_step := CacheStore.Succeeds |};
     dialogs := fun _ _ => false;
     second_rejects_first := fun _ => false |}.

(** The same, with a user who accepts every dialog. *)
Definition confirmed_offline : env :=
  {| present := present offline; year := year offline; month := month offline;
     now := now offline; network := network offline; storage := storage offline;
     dialogs := fun _ _ => true;
     second_rejects_first := second_rejects_first offline |}.


(** The same server, seen from a page that has the dashboard root only. *)
Definition dashboard_only : env :=
  {| present := fun sel => String.eqb sel dashboard_root;
     year := year offline; month := month offline; now := now offline;
     network := network offline; storage := storage offline;
     dialogs := dialogs offline;
     second_rejects_first := second_rejects_first offline |}.

(** A server that answers the first request with [body] and cannot be
    reached afterwards. *)
Definition first_answer_only (body : json) : env :=
  {| present := present offline; year := year offline; month := month offline;
     now := now offline;
     network := fun h _ =>
       match requests h with
       | [] => Response true 200 (Some body)
       | _ => NetworkError "Failed to fetch"
       end;
     storage := storage offline;
     dialogs := dialogs offline;
     second_rejects_first := second_rejects_first offline |}.

(** The expenses the server of the instances answers with. *)
Definition one_expense : json :=
  JObj [("ok", JBool true);
        ("expenses",
         JArr [JObj [("date", JStr "2026-11-02"); ("category", JStr "Casa");
                     ("concept", JStr "Luz"); ("amount", JStr "12.50");
                     ("currency", JStr "EUR"); ("afectaBanco", JBool true)]])].

(** The companies it answers with. *)
Definition one_company : json :=
  JObj [("ok", JBool true);
        ("companies",
         JArr [JObj [("id", JNum (of_Z 3)); ("name", JStr "Taxi Sur");
                     ("currency", JStr "EUR"); ("precioHoraDia", JStr "10.00");
                     ("precioHoraNoche", JStr "12.00");
                     ("irpfPorcentaje", JStr "2")]])].

(** A server whose work entries cannot be reached. *)
Definition entries_down (body : json) : env :=
  {| present := present offline; year := year offline; month := month offline;
     now := now offline;
     network := fun _ r =>
       if String.eqb (url r) "/api/work-entries"
       then NetworkError "Failed to fetch"
       else Response true 200 (Some body);
     storage := storage offline;
     dialogs := dialogs offline;
     second_rejects_first := second_rejects_first offline |}.

(** A cached monthly report of November 2026. *)
Definition cached_report : json :=
  JObj [("ok", JBool true); ("isClosed", JBool false);
        ("incomeNetByCurrency", JObj [("EUR", JStr "1500.00")])].

Definition world_with_report : world :=
  {| store := {[ "report:2026-11" :=
                   {| CacheStore.key := "report:2026-11";
                      CacheStore.data := cached_report;
                      CacheStore.updatedAt := 1793534400000 |} ]};
     screen := ∅; epoch := ∅; history := [];
     CURRENT_USER := Some (JObj [("role", JStr "ROLE_FREE")]) |}.




(** The dashboard of an open month on screen. *)
Definition world_with_dashboard : world :=
  {| store := ∅;
     screen := {[ dashboard_root :=
                    DashboardCards (JObj [("bootstrap", JObj []); ("report", cached_report)])
                      false ]};
     epoch := {[ dashboard_root := 1%nat ]};
     history := [];
     CURRENT_USER := None |}.

(** The reports view on screen, nothing loaded yet. *)
Definition world_with_reports_panel : world :=
  {| store := ∅;
     screen := {[ reports_root := ReportsPanel false "" ReportBlank ]};
     epoch := {[ reports_root := 1%nat ]};
     history := [];
     CURRENT_USER := Some (JObj [("role", JStr "ROLE_FREE")]) |}.

End AppSpec.

(* ===================================================================== *)
(** * Properties *)

(** ** Display currency *)

Section PickCurrency.
Import JSNumber JS Money MoneySpec.
Local Arguments String.eqb : simpl never.

Lemma digit_char_is_digit (d : Z) : 0 <= d < 10 -> is_digit (digit_char d) = true.
Proof.
  intros H.
  assert (d = 0 \/ d = 1 \/ d = 2 \/ d = 3 \/ d = 4 \/ d = 5 \/ d = 6 \/
          d = 7 \/ d = 8 \/ d = 9) as Hd by lia.
  repeat (destruct Hd as [-> | Hd]; [reflexivity |]). subst d. reflexivity.
Qed.

Lemma digits_fuel_head (fuel : nat) :
  forall n acc, exists c rest,
    digits_fuel (S fuel) n acc = String c rest /\ is_digit c = true.
Proof.
  induction fuel as [| fuel IH]; intros n acc.
  - exists (digit_char (n mod 10)), acc. split.
    + simpl. destruct (n <? 10); reflexivity.
    + apply digit_char_is_digit, Z.mod_pos_bound. lia.
  - change (digits_fuel (S (S fuel)) n acc)
      with (if n <? 10 then String (digit_char (n mod 10)) acc
            else digits_fuel (S fuel) (n / 10) (String (digit_char (n mod 10)) acc)).
    destruct (n <? 10).
    + exists (digit_char (n mod 10)), acc. split; [reflexivity |].
      apply digit_char_is_digit, Z.mod_pos_bound. lia.
    + apply IH.
Qed.

Lemma index_key_not_EUR (n : Z) : String.eqb "EUR" (string_of_Z_nonneg n) = false.
Proof.
  unfold string_of_Z_nonneg.
  destruct (digits_fuel_head (Z.to_nat (Z.log2 n)) n "") as (c & rest & -> & Hc).
  apply String.eqb_neq. intros [= <- _]. discriminate Hc.
Qed.

Lemma assoc_EUR (props : list (string * json)) :
  match assoc "EUR" props with Some _ => true | None => false end
  = existsb (String.eqb "EUR") (List.map fst props).
Proof.
  induction props as [| [k v] props IH]; [reflexivity |].
  simpl. destruct (String.eqb "EUR" k); [reflexivity | exact IH].
Qed.

Lemma array_has_no_EUR (items : list json) :
  get (Some (JArr items)) "EUR" = None.
Proof. reflexivity. Qed.

Lemma array_keys_no_EUR (items : list json) :
  existsb (String.eqb "EUR") (object_keys (JArr items)) = false.
Proof.
  simpl. induction (seq 0 (List.length items)) as [| i l IH]; [reflexivity |].
  simpl. rewrite index_key_not_EUR. exact IH.
Qed.

(** The first loop of the code looks for the canonical code among the
    keys of the maps. *)
Lemma has_EUR_spec (maps : list jsvalue) :
  has_EUR maps = existsb (fun m => existsb (String.eqb "EUR") (keys m)) maps.
Proof.
  induction maps as [| m maps IH]; [reflexivity |].
  destruct m as [[| b | x | s | items | props] |]; simpl; try exact IH.
  - destruct b; exact IH.
  - destruct (truthy x); exact IH.
  - destruct (negb (is_empty s)); exact IH.
  - fold (object_keys (JArr items)). rewrite array_keys_no_EUR. exact IH.
  - rewrite <- assoc_EUR. destruct (assoc "EUR" props); [reflexivity | exact IH].
Qed.

(** The second loop finds the first key of the first map that has keys. *)
Lemma first_key_spec (maps : list jsvalue) :
  first_key maps = match List.find has_keys maps with
                   | Some m => List.head (keys m)
                   | None => None
                   end.
Proof.
  induction maps as [| m maps IH]; [reflexivity |].
  destruct m as [[| b | x | s | items | props] |];
    cbn [first_key to_boolean typeof_object andb List.find];
    unfold has_keys; cbn [keys]; try exact IH.
  - destruct b; exact IH.
  - destruct (truthy x); exact IH.
  - destruct (negb (is_empty s)); exact IH.
  - destruct (object_keys (JArr items)) eqn:Hk; [exact IH |].
    cbn [keys]. rewrite Hk. reflexivity.
  - destruct (object_keys (JObj props)) eqn:Hk; [exact IH |].
    cbn [keys]. rewrite Hk. reflexivity.
Qed.

Lemma find_has_keys (maps : list jsvalue) (m : jsvalue) :
  List.find has_keys maps = Some m -> exists k ks, keys m = k :: ks.
Proof.
  intros H. apply List.find_some in H as [_ H]. unfold has_keys in H.
  destruct (keys m) as [| k ks]; [discriminate | eauto].
Qed.

(** C4. [pickCurrency] follows the precedence of the specification: the
    canonical code [EUR] when it is a key of some map, else the first key
    of the first non-empty map, else [EUR]; on bank [{EUR: "10.00"}],
    income [{}], expenses [{XAF: "500"}] it answers [EUR]. *)
Theorem pickCurrency_precedence :
  (forall maps : list jsvalue, pickCurrency maps = pickDisplayCurrency_spec maps)
  /\ pickCurrency [Some (JObj [("EUR", JStr "10.00")]);
                   Some (JObj []);
                   Some (JObj [("XAF", JStr "500")])] = "EUR".
Proof.
  split; [| reflexivity].
  intros maps. unfold pickCurrency, pickDisplayCurrency_spec.
  rewrite has_EUR_spec, first_key_spec.
  destruct (existsb _ maps); [reflexivity |].
  destruct (List.find has_keys maps) as [m |] eqn:Hfind; [| reflexivity].
  destruct (find_has_keys _ _ Hfind) as (k & ks & ->). reflexivity.
Qed.

End PickCurrency.

(** ** Binary64 arithmetic *)

Section Binary64.
Import JSNumber MoneySpec.

Lemma shr_1_nonneg (mrs : shr_record) : 0 <= shr_m mrs -> 0 <= shr_m (shr_1 mrs).
Proof.
  destruct mrs as [m r s]. cbn [shr_m]. intros Hm.
  destruct m as [| p | p]; [cbn; lia | | lia].
  destruct p; cbn; lia.
Qed.

Lemma iter_pos_preserves {A} (P : A -> Prop) (f : A -> A) :
  (forall x, P x -> P (f x)) -> forall n x, P x -> P (SpecFloat.iter_pos f n x).
Proof.
  intros Hf. induction n as [n IH | n IH |]; intros x Hx; cbn; auto.
Qed.

Lemma shr_nonneg (mrs : shr_record) (e n : Z) :
  0 <= shr_m mrs -> 0 <= shr_m (fst (shr mrs e n)).
Proof.
  intros Hm. destruct n as [| p | p]; cbn [shr fst]; try assumption.
  apply (iter_pos_preserves (fun r => 0 <= shr_m r)); [apply shr_1_nonneg | assumption].
Qed.

Lemma shr_record_of_loc_m (m : Z) (l : location) : shr_m (shr_record_of_loc m l) = m.
Proof. destruct l as [| []]; reflexivity. Qed.

Lemma shr_fexp_nonneg (m e : Z) (l : location) :
  0 <= m -> 0 <= shr_m (fst (shr_fexp prec emax m e l)).
Proof.
  intros Hm. unfold shr_fexp. apply shr_nonneg. now rewrite shr_record_of_loc_m.
Qed.

Lemma round_nearest_even_nonneg (m : Z) (l : location) :
  0 <= m -> 0 <= round_nearest_even m l.
Proof.
  intros Hm. destruct l as [| []]; cbn; try lia. destruct (Z.even m); lia.
Qed.

(** Rounding a non-negative mantissa never produces NaN. *)
Lemma binary_round_aux_not_nan (s : bool) (m e : Z) (l : location) :
  0 <= m -> binary_round_aux prec emax s m e l <> S754_nan.
Proof.
  intros Hm. unfold binary_round_aux.
  pose proof (shr_fexp_nonneg m e l Hm) as H1.
  destruct (shr_fexp prec emax m e l) as [mrs' e'].
  cbn [fst] in H1.
  pose proof (shr_fexp_nonneg _ e' loc_Exact
                (round_nearest_even_nonneg _ (loc_of_shr_record mrs') H1)) as H2.
  destruct (shr_fexp prec emax _ e' loc_Exact) as [mrs'' e''].
  cbn [fst] in H2.
  destruct (shr_m mrs'') as [| p | p]; [discriminate | | lia].
  destruct (e'' <=? emax - prec); discriminate.
Qed.

Lemma of_Z_not_nan (z : Z) : of_Z z <> NaN.
Proof.
  unfold of_Z, binary_normalize, binary_round.
  destruct z as [| p | p]; [discriminate | |];
    destruct (shl_align _ _ _) as [mz ez]; apply binary_round_aux_not_nan; lia.
Qed.

Lemma Math_round_not_nan (x : number) : x <> NaN -> Math_round x <> NaN.
Proof.
  intros Hx. destruct x as [s | s | | s m e]; cbn [Math_round]; try assumption.
  destruct (0 <=? e); [discriminate |].
  destruct (_ =? 0); [discriminate | apply of_Z_not_nan].
Qed.

Lemma mul_finite_not_nan (x : number) (s : bool) (m : positive) (e : Z) :
  x <> NaN -> mul x (S754_finite s m e) <> NaN.
Proof.
  intros Hx. destruct x as [sx | sx | | sx mx ex]; cbn [mul SFmul];
    try discriminate; [contradiction |].
  apply binary_round_aux_not_nan. lia.
Qed.







(** *** Integers below [2^53] are exact *)



















End Binary64.

(** ** Malformed amounts *)

Section Malformed.
Import JSNumber JS Money MoneySpec.



















End Malformed.

(** ** Dashboard figures *)

Section Dashboard.
Import JSNumber JS Money MoneySpec.






(** C10. The bank amount is read in two units: a string is a decimal in
    major units, scaled to cents; a number is taken as cents already. The
    string ["10"] and the number [10] under the same key give 1000 and 10
    cents, shown as [10.00] and [0.10]. *)
Theorem bank_amount_depends_on_json_type :
  (forall code s : string,
     bankCents_of (Some (JObj [(code, JStr s)])) code = amountStrToCents (Some (JStr s)))
  /\ (forall (code : string) (x : number),
        bankCents_of (Some (JObj [(code, JNum x)])) code
        = if truthy x then x else pos_zero)
  /\ bankCents (dashboard_figures (dashboard_with_bank (JStr "10"))) = of_Z 1000
  /\ bankCents (dashboard_figures (dashboard_with_bank (JNum (of_Z 10)))) = of_Z 10
  /\ bank_amount (dashboard_with_bank (JStr "10")) = "10.00"
  /\ bank_amount (dashboard_with_bank (JNum (of_Z 10))) = "0.10"
  /\ mul (of_Z 100) (of_Z 10) = of_Z 1000.
Proof.
  split; [| split; [| split; [| split; [| split; [| split]]]]].
  - intros code s. unfold bankCents_of, get. cbn [assoc].
    rewrite String.eqb_refl. reflexivity.
  - intros code x. unfold bankCents_of, get. cbn [assoc].
    rewrite String.eqb_refl. cbn [is_string]. unfold or_else. cbn [to_boolean].
    destruct x as [s | s | | s m e]; reflexivity.
  - vm_compute. reflexivity.
  - vm_compute. reflexivity.
  - vm_compute. reflexivity.
  - vm_compute. reflexivity.
  - vm_compute. reflexivity.
Qed.

End Dashboard.

(** ** Round trip of decimal strings *)

Section RoundTrip.
Import JSNumber JS Money MoneySpec.





























End RoundTrip.

(** ** Cache store *)

Section CacheFacts.
Import JSNumber JS Outcome CacheStore.

Lemma cacheGet_readable (i : idb) (s : gmap string entry) (k : string) :
  readable i = true -> cacheGet i s k = Ok (row_data (s !! k)).
Proof.
  destruct i as [[| e1] [| e2] [| e3] c]; cbn; intros H;
    first [reflexivity | discriminate H].
Qed.

Lemma cacheGet_unreadable (i : idb) (s : gmap string entry) (k : string) :
  readable i = false -> cacheGet i s k = Ok JNull.
Proof.
  destruct i as [[| e1] [| e2] [| e3] c]; cbn; intros H;
    first [reflexivity | discriminate H].
Qed.

Lemma cacheSet_healthy (i : idb) (now : Z) (s : gmap string entry) (k : string) (d : json) :
  healthy i = true ->
  cacheSet i now s k d
  = (Ok tt, <[k := {| key := k; data := d; updatedAt := now |}]> s).
Proof.
  destruct i as [[| e1] [| e2] [| e3] [| e4]]; cbn; intros H;
    first [reflexivity | discriminate H].
Qed.

Lemma cacheSet_unhealthy (i : idb) (now : Z) (s : gmap string entry) (k : string) (d : json) :
  healthy i = false -> cacheSet i now s k d = (Ok tt, s).
Proof.
  destruct i as [[| e1] [| e2] [| e3] [| e4]]; cbn; intros H;
    first [reflexivity | discriminate H].
Qed.



End CacheFacts.

(** ** Running the client *)

Section Runs.
Import JSNumber JS Outcome App AppSpec.
Variable E : env.

Lemma cacheGet_run (k : string) (w : world) :
  cacheGet E k w
  = (CacheStore.cacheGet (storage E (history w)) (store w) k, logged (CacheRead k) w).
Proof. reflexivity. Qed.

Lemma cacheSet_run (k : string) (d : json) (w : world) :
  cacheSet E k d w = (Ok tt, written E k d w).
Proof.
  unfold cacheSet, written, bind, get_world, record, set_store, lift. cbn.
  destruct (CacheStore.healthy (storage E (history w))) eqn:Hh.
  - now rewrite cacheSet_healthy by exact Hh.
  - now rewrite cacheSet_unhealthy by exact Hh.
Qed.

Lemma fetchJson_run (r : request) (w : world) :
  fetchJson E r w = (fetch_outcome (network E (history w) r), logged (Requested r) w).
Proof. reflexivity. Qed.

Lemma render_run (sel : string) (n : node) (w : world) :
  render sel n w = (Ok tt, rendered sel n w).
Proof. reflexivity. Qed.

Lemma confirm_run (message : string) (w : world) :
  confirm E message w
  = (Ok (dialogs E (history w) message),
     logged (Confirmed message (dialogs E (history w) message)) w).
Proof. reflexivity. Qed.

Lemma update_history (sel : string) (g : nat) (f : node -> node) (w : world) :
  update sel g f w = (Ok tt, exec (update sel g f) w)
  /\ history (exec (update sel g f) w) = history w
  /\ store (exec (update sel g f) w) = store w.
Proof.
  unfold update, exec, bind, get_world. cbn.
  destruct (screen w !! sel); [| auto].
  destruct (Nat.eqb _ g); auto.
Qed.

(** A cached read always settles to a value. *)
Lemma cacheGet_settles (k : string) (w : world) :
  exists v, cacheGet E k w = (Ok v, logged (CacheRead k) w).
Proof.
  rewrite cacheGet_run.
  destruct (CacheStore.readable (storage E (history w))) eqn:Hr.
  - eexists. now rewrite cacheGet_readable by exact Hr.
  - eexists. now rewrite cacheGet_unreadable by exact Hr.
Qed.

(** *** Rules for the effects of a program *)

Lemma emits_silent {A} (Q : event -> Prop) (m : M A) :
  (forall w, history (exec m w) = history w) -> emits Q m.
Proof. intros H w. exists []. rewrite H, app_nil_r. auto. Qed.

Lemma emits_ret {A} (Q : event -> Prop) (a : A) : emits Q (ret a).
Proof. now apply emits_silent. Qed.

Lemma emits_throw {A} (Q : event -> Prop) (e : string) : emits Q (@throw A e).
Proof. now apply emits_silent. Qed.

Lemma emits_lift {A} (Q : event -> Prop) (r : result A) : emits Q (lift r).
Proof. now apply emits_silent. Qed.

Lemma emits_get_world (Q : event -> Prop) : emits Q get_world.
Proof. now apply emits_silent. Qed.

Lemma emits_epoch_of (Q : event -> Prop) (sel : string) : emits Q (epoch_of sel).
Proof. now apply emits_silent. Qed.

Lemma emits_set_user (Q : event -> Prop) (u : jsvalue) : emits Q (set_user u).
Proof. now apply emits_silent. Qed.

Lemma emits_render (Q : event -> Prop) (sel : string) (n : node) : emits Q (render sel n).
Proof. now apply emits_silent. Qed.

Lemma emits_update (Q : event -> Prop) (sel : string) (g : nat) (f : node -> node) :
  emits Q (update sel g f).
Proof. apply emits_silent. intros w. apply update_history. Qed.

Lemma emits_record (Q : event -> Prop) (ev : event) : Q ev -> emits Q (record ev).
Proof. intros H w. exists [ev]. auto. Qed.

Lemma emits_bind {A B} (Q : event -> Prop) (m : M A) (k : A -> M B) :
  emits Q m -> (forall a, emits Q (k a)) -> emits Q (bind m k).
Proof.
  intros Hm Hk w. destruct (Hm w) as (evs1 & H1 & F1).
  unfold exec, bind in *. destruct (m w) as [[a | e] w1]; cbn [snd] in *.
  - destruct (Hk a w1) as (evs2 & H2 & F2). unfold exec in H2.
    exists (evs1 ++ evs2)%list. rewrite H2, H1, app_assoc. split; [reflexivity |].
    apply Forall_app; auto.
  - exists evs1. auto.
Qed.

Lemma emits_try_catch {A} (Q : event -> Prop) (m : M A) (h : string -> M A) :
  emits Q m -> (forall e, emits Q (h e)) -> emits Q (try_catch m h).
Proof.
  intros Hm Hh w. destruct (Hm w) as (evs1 & H1 & F1).
  unfold exec, try_catch in *. destruct (m w) as [[a | e] w1]; cbn [snd] in *.
  - exists evs1. auto.
  - destruct (Hh e w1) as (evs2 & H2 & F2). unfold exec in H2.
    exists (evs1 ++ evs2)%list. rewrite H2, H1, app_assoc. split; [reflexivity |].
    apply Forall_app; auto.
Qed.

Lemma emits_all2 {A B} (Q : event -> Prop) (a : M A) (b : M B) :
  emits Q a -> emits Q b -> emits Q (all2 E a b).
Proof.
  intros Ha Hb w. destruct (Ha w) as (evs1 & H1 & F1).
  unfold exec, all2 in *. destruct (a w) as [ra w1]; cbn [snd] in *.
  destruct (Hb w1) as (evs2 & H2 & F2). unfold exec in H2.
  destruct (b w1) as [rb w2]; cbn [snd] in *.
  exists (evs1 ++ evs2)%list.
  assert (history w2 = (history w ++ evs1 ++ evs2)%list) as Hh
    by (rewrite H2, H1, app_assoc; reflexivity).
  split; [| apply Forall_app; auto].
  destruct ra, rb; exact Hh.
Qed.

Lemma emits_cacheGet (Q : event -> Prop) (k : string) :
  Q (CacheRead k) -> emits Q (cacheGet E k).
Proof.
  intros H w. exists [CacheRead k]. unfold exec. rewrite cacheGet_run. auto.
Qed.

Lemma emits_cacheSet (Q : event -> Prop) (k : string) (d : json) :
  Q (CacheWritten k d) -> emits Q (cacheSet E k d).
Proof.
  intros H w. exists [CacheWritten k d]. unfold exec. rewrite cacheSet_run. auto.
Qed.

Lemma emits_fetchJson (Q : event -> Prop) (r : request) :
  Q (Requested r) -> emits Q (fetchJson E r).
Proof.
  intros H w. exists [Requested r]. unfold exec. rewrite fetchJson_run. auto.
Qed.

Lemma emits_confirm (Q : event -> Prop) (message : string) :
  (forall a, Q (Confirmed message a)) -> emits Q (confirm E message).
Proof.
  intros H w. eexists [_]. unfold exec. rewrite confirm_run. cbn. auto.
Qed.

Lemma emits_when_present (Q : event -> Prop) (sels : list string) (m : M unit) :
  emits Q m -> emits Q (when_present E sels m).
Proof.
  intros H. unfold when_present. destruct (forallb _ _); [exact H | apply emits_ret].
Qed.

(** Weakening. *)
Lemma emits_weaken {A} (Q Q' : event -> Prop) (m : M A) :
  (forall ev, Q ev -> Q' ev) -> emits Q m -> emits Q' m.
Proof.
  intros HQ Hm w. destruct (Hm w) as (evs & H & F). exists evs. split; [exact H |].
  eapply Forall_impl; eauto.
Qed.

End Runs.

(** Decompose a program along its structure. *)
Ltac emits_step :=
  match goal with
  | |- AppSpec.emits _ (App.bind _ _) => apply emits_bind; [| intros ?]
  | |- AppSpec.emits _ (App.try_catch _ _) => apply emits_try_catch; [| intros ?]
  | |- AppSpec.emits _ (App.all2 _ _ _) => apply emits_all2
  | |- AppSpec.emits _ (App.when_present _ _ _) => apply emits_when_present
  | |- AppSpec.emits _ (App.ret _) => apply emits_ret
  | |- AppSpec.emits _ (App.lift _) => apply emits_lift
  | |- AppSpec.emits _ App.get_world => apply emits_get_world
  | |- AppSpec.emits _ (App.epoch_of _) => apply emits_epoch_of
  | |- AppSpec.emits _ (App.set_user _) => apply emits_set_user
  | |- AppSpec.emits _ (App.render _ _) => apply emits_render
  | |- AppSpec.emits _ (App.update _ _ _) => apply emits_update
  | |- AppSpec.emits _ (App.record _) => apply emits_record
  | |- AppSpec.emits _ (App.cacheGet _ _) => apply emits_cacheGet
  | |- AppSpec.emits _ (App.cacheSet _ _ _) => apply emits_cacheSet
  | |- AppSpec.emits _ (App.fetchJson _ _) => apply emits_fetchJson
  | |- AppSpec.emits _ (App.confirm _ _) => apply emits_confirm; intros ?
  | |- AppSpec.emits _ (if ?c then _ else _) => destruct c
  | |- AppSpec.emits _ (let '(_, _) := ?x in _) => destruct x
  | |- AppSpec.emits _ (match ?x with _ => _ end) => destruct x
  end.

(** ** Failure of the fresh fetch *)

Section FetchFailure.
Import JSNumber JS Outcome App AppSpec.
Variable E : env.

(** The screen and the store after a run that only logged. *)
Lemma logged_fields (ev : event) (w : world) :
  store (logged ev w) = store w /\ screen (logged ev w) = screen w
  /\ epoch (logged ev w) = epoch w.
Proof. auto. Qed.

Lemma written_keys_app (h1 h2 : list event) :
  written_keys (h1 ++ h2) = (written_keys h1 ++ written_keys h2)%list.
Proof. unfold written_keys. apply omap_app. Qed.

(** A fetch that throws leaves the request in the history and nothing
    else. *)
Lemma fetchJson_throws (r : request) (w : world) (msg : string) :
  outcome (fetchJson E r) w = Throw msg ->
  fetchJson E r w = (Throw msg, logged (Requested r) w).
Proof.
  unfold outcome. rewrite fetchJson_run. cbn [fst]. now intros ->.
Qed.



(** *** Dashboard *)




(** *** The common shape of the fresh phase *)

Lemma fresh_fails {A} (r : request) (rest : json -> M A) (h : string -> M A)
    (w : world) (msg : string) :
  outcome (fetchJson E r) w = Throw msg ->
  try_catch (bind (fetchJson E r) rest) h w = h msg (logged (Requested r) w).
Proof.
  intros H. unfold try_catch, bind. now rewrite (fetchJson_throws r w msg H).
Qed.

Lemma fresh_fails_exec {A} (r : request) (rest : json -> M A) (h : string -> M A)
    (w : world) (msg : string) :
  outcome (fetchJson E r) w = Throw msg ->
  exec (try_catch (bind (fetchJson E r) rest) h) w = exec (h msg) (logged (Requested r) w).
Proof. intros H. unfold exec. now rewrite (fresh_fails r rest h w msg H). Qed.

Lemma alert_unless_cached (root : string) (cached : json) (msg : string) (w : world) :
  exec (if negb (to_boolean (Some cached)) then render root (Alert msg) else ret tt) w
  = if to_boolean (Some cached) then w else rendered root (Alert msg) w.
Proof. now destruct (to_boolean (Some cached)). Qed.

Lemma init_runs_phases {A} (roots : list string) (stale : M A) (fresh : A -> M unit)
    (w : world) (a : A) :
  forallb (present E) roots = true ->
  outcome stale w = Ok a ->
  exec (when_present E roots (bind stale fresh)) w = exec (fresh a) (exec stale w).
Proof.
  intros Hroots H. unfold when_present. rewrite Hroots.
  unfold exec, bind, outcome in *. destruct (stale w) as [r ws].
  cbn [fst snd] in *. now subst r.
Qed.

(** *** Expenses *)

Lemma expenses_stale_run (w : world) :
  exists cached,
    outcome (expenses_stale E) w = Ok cached
    /\ exec (expenses_stale E) w
       = rendered expense_form_root (ExpenseFormPanel "")
           ((if to_boolean (get (Some cached) "expenses")
             then rendered expenses_root (ExpensesTable (get (Some cached) "expenses"))
             else fun x => x)
              (logged (CacheRead "expenses") w)).
Proof.
  destruct (cacheGet_settles E "expenses" w) as (cached & Hget).
  exists cached. unfold outcome, exec, expenses_stale, bind. rewrite Hget.
  unfold renderExpenses.
  destruct (to_boolean (get (Some cached) "expenses")); rewrite ?render_run; auto.
Qed.

Lemma expenses_failure :
  failure_protocol E [expense_form_root; expenses_root] (initExpenses E)
    (expenses_stale E) (fetchJson E (GET "/api/expenses"))
    expenses_root "expenses"
    (fun cached => ExpensesTable (get (Some cached) "expenses")).
Proof.
  intros w cached msg Hroots Hstale Hfetch.
  destruct (expenses_stale_run w) as (c & Hc & Hws).
  rewrite Hc in Hstale. injection Hstale as ->.
  unfold initExpenses. rewrite (init_runs_phases _ _ _ w cached Hroots Hc).
  unfold expenses_fresh.
  rewrite (fresh_fails_exec _ _ _ _ msg Hfetch), alert_unless_cached, Hws.
  split; [| split; [| split; [| split]]].
  - destruct (to_boolean (Some cached)), (to_boolean (get (Some cached) "expenses"));
      reflexivity.
  - destruct (to_boolean (Some cached)), (to_boolean (get (Some cached) "expenses"));
      cbn [history rendered logged]; rewrite !written_keys_app; cbn;
      now rewrite !app_nil_r.
  - intros ->. cbn [screen rendered].
    rewrite lookup_insert_ne by discriminate. apply lookup_insert_eq.
  - intros ->. reflexivity.
  - intros ->. cbn [screen rendered logged]. apply lookup_insert_eq.
Qed.

(** *** Bank *)



(** *** Debts *)



(** *** Companies and work entries *)

Lemma companies_stale_run (w : world) :
  exists cc ce,
    outcome (companies_stale E) w = Ok (cc, ce)
    /\ exec (companies_stale E) w
       = (if to_boolean (get (Some ce) "entries")
          then rendered entries_root
                 (WorkEntriesPanel (get (Some ce) "entries")
                    (or_else (get (Some cc) "companies") empty_array) "")
          else fun x => x)
           (logged (CacheRead "workEntries")
              ((if to_boolean (get (Some cc) "companies")
                then rendered companies_root
                       (CompaniesPanel (get (Some cc) "companies") "")
                else fun x => x)
                 (logged (CacheRead "companies") w))).
Proof.
  destruct (cacheGet_settles E "companies" w) as (cc & Hcc).
  exists cc. unfold outcome, exec, companies_stale, bind. rewrite Hcc.
  unfold renderCompanies, renderWorkEntries. cbv beta iota.
  destruct (to_boolean (get (Some cc) "companies")); rewrite ?render_run;
    cbv beta iota; unfold ret;
    match goal with
    | |- context [cacheGet E "workEntries" ?w1] =>
        destruct (cacheGet_settles E "workEntries" w1) as (ce & Hce); rewrite Hce
    end;
    cbv beta iota;
    exists ce; destruct (to_boolean (get (Some ce) "entries")); rewrite ?render_run; auto.
Qed.


(** *** Reports *)

Lemma update_run (sel : string) (g : nat) (f : node -> node) (n : node) (w : world) :
  screen w !! sel = Some n ->
  default O (epoch w !! sel) = g ->
  update sel g f w
  = (Ok tt, {| store := store w; screen := <[sel := f n]> (screen w);
               epoch := epoch w; history := history w;
               CURRENT_USER := CURRENT_USER w |}).
Proof.
  intros Hn Hg. unfold update, bind, get_world. cbn. rewrite Hn, Hg, Nat.eqb_refl.
  reflexivity.
Qed.



End FetchFailure.

Section FetchFailureInstances.
Import JSNumber JS Outcome App AppSpec.



End FetchFailureInstances.

(** ** Failure of a write *)

Section WriteFailure.
Import JSNumber JS Outcome App AppSpec.
Variable E : env.

Lemma requests_app (h1 h2 : list event) :
  requests (h1 ++ h2) = (requests h1 ++ requests h2)%list.
Proof. unfold requests. apply omap_app. Qed.










End WriteFailure.

Section WriteFailureInstances.
Import JSNumber JS Outcome App AppSpec.



End WriteFailureInstances.

(** ** Cache keys *)

Section CacheKeys.
Import JSNumber JS Outcome App AppSpec.
Variable E : env.



















End CacheKeys.

Section CacheKeysInstances.
Import JSNumber JS Outcome App AppSpec.


End CacheKeysInstances.

(** ** Confirmation of destructive actions *)

Section Confirmation.
Import JSNumber JS Outcome App AppSpec.
Variable E : env.

Ltac quiet := repeat (emits_step; cbn [writes_in no_dialog]; auto).

(** A request, then a continuation: the request is the next effect. *)
Lemma request_first {A} (Q : event -> Prop) (r : request) (rest : json -> M A) :
  (forall j, emits Q (rest j)) ->
  forall w, exists evs,
    history (exec (bind (fetchJson E r) rest) w) = (history w ++ Requested r :: evs)%list
    /\ Forall Q evs.
Proof.
  intros Hrest w. unfold exec, bind. rewrite fetchJson_run.
  destruct (fetch_outcome _) as [j | e].
  - destruct (Hrest j (logged (Requested r) w)) as (evs & H & F).
    exists evs. unfold exec in H. rewrite H. cbn [history logged].
    now rewrite <- app_assoc.
  - exists []. auto.
Qed.

Lemma confirmations_app (h1 h2 : list event) :
  confirmations (h1 ++ h2) = (confirmations h1 ++ confirmations h2)%list.
Proof.
  unfold confirmations. induction h1 as [| ev h1 IH]; [reflexivity |].
  destruct ev; cbn; now rewrite <- ?IH.
Qed.

Lemma confirmations_quiet (evs : list event) :
  Forall no_dialog evs -> confirmations evs = [].
Proof.
  unfold confirmations. induction 1 as [| ev evs Hev _ IH]; [reflexivity |].
  destruct ev; cbn in *; try contradiction; exact IH.
Qed.

Lemma refresh_admin_quiet : emits no_dialog (refresh_admin E).
Proof. unfold refresh_admin. quiet. Qed.

(** The shape shared by the handlers of the administration view. *)
Lemma guarded_shape (question : string) (r : request) (rest : M unit) :
  question <> final_confirmation ->
  emits no_dialog rest ->
  guarded E question r
    (bind (doubleConfirm E question) (fun go =>
       if negb go then ret tt else bind (fetchJson E r) (fun _ => rest))).
Proof.
  intros Hne Hrest. split; [exact Hne |]. intros w h.
  unfold doubleConfirm.
  assert (forall w0, exists evs,
            history (exec (bind (fetchJson E r) (fun _ => rest)) w0)
            = (history w0 ++ Requested r :: evs)%list /\ Forall no_dialog evs) as Hreq
    by (apply request_first; intros _; exact Hrest).
  split; [| split].
  - intros H1. unfold exec, bind. rewrite confirm_run. fold h. rewrite H1. reflexivity.
  - intros H1 H2. unfold exec, bind. rewrite confirm_run. fold h. rewrite H1.
    cbn [negb]. rewrite confirm_run. cbn [history logged]. fold h. rewrite H2.
    cbn. now rewrite <- app_assoc.
  - intros H1 H2.
    destruct (Hreq (logged (Confirmed final_confirmation true)
                      (logged (Confirmed question true) w))) as (evs & H & F).
    exists evs. split; [| exact F].
    unfold exec, bind in H |- *. rewrite confirm_run. fold h. rewrite H1.
    cbn [negb]. rewrite confirm_run. cbn [history logged]. fold h. rewrite H2.
    cbn [negb]. rewrite H. cbn [history logged]. subst h.
    now rewrite <- !app_assoc.
Qed.

(** Two strings that differ at position [n]. *)
Ltac differ n :=
  let H := fresh in
  intros H; apply (f_equal (String.get n)) in H; vm_compute in H; discriminate H.

Lemma change_plan_guarded (u : json) (value : string) :
  guarded E ("Cambiar plan de " ++ email_of u ++ " a " ++ value ++ "?")
    (POST (user_url u "set-plan") (JObj [("role", JStr value)]))
    (change_plan E u value).
Proof.
  apply guarded_shape; [differ 1%nat | apply refresh_admin_quiet].
Qed.

Lemma change_role_guarded (u : json) (value : string) :
  guarded E ("Cambiar rol de " ++ email_of u ++ " a " ++ value ++ "?")
    (POST (user_url u "set-role") (JObj [("role", JStr value)]))
    (change_role E u value).
Proof.
  apply guarded_shape; [differ 1%nat | apply refresh_admin_quiet].
Qed.

Lemma change_active_guarded (u : json) (checked : bool) :
  guarded E ((if checked then "Activar" else "Suspender") ++ " a " ++ email_of u ++ "?")
    (POST (user_url u "suspend") (JObj [("isActive", JBool checked)]))
    (change_active E u checked).
Proof.
  apply guarded_shape; [destruct checked; differ 0%nat | apply refresh_admin_quiet].
Qed.

Lemma click_soft_delete_guarded (u : json) :
  guarded E ("Soft delete de " ++ email_of u ++ "? Mantiene datos y bloquea login.")
    (POST (user_url u "soft-delete") (JObj []))
    (click_soft_delete E u).
Proof.
  apply guarded_shape; [differ 0%nat | apply refresh_admin_quiet].
Qed.

Lemma click_recover_guarded (u : json) :
  guarded E ("Recuperar cuenta " ++ email_of u ++ "?")
    (POST (user_url u "recover") (JObj []))
    (click_recover E u).
Proof.
  apply guarded_shape; [differ 0%nat | apply refresh_admin_quiet].
Qed.

Lemma click_claim_owner_guarded (token : string) :
  guarded E "Convertir esta cuenta en OWNER?"
    (POST "/api/admin/bootstrap/claim-owner" (JObj [("token", JStr token)]))
    (click_claim_owner E token).
Proof.
  apply guarded_shape; [differ 3%nat | quiet].
Qed.

Lemma close_month_guarded :
  guarded E (close_month_question E)
    (POST "/api/months/close" (year_month_payload (of_Z (year E)) (of_Z (month E))))
    (closeCurrentMonthAndRefresh E).
Proof.
  apply guarded_shape; [differ 0%nat |].
  unfold fetch_dashboard, renderDashboard. quiet.
Qed.

(** The handlers behind [doubleConfirm]: the changes of plan, role and
    activity, the soft delete, the recovery and the owner claim of the
    administration view, and the month close of the dashboard. Each one
    sends its request only after two accepted dialogs, worded
    differently; a cancelled dialog ends the run without a request. *)
Lemma destructive_actions_guarded :
  (forall (u : json) (value : string),
     guarded E ("Cambiar plan de " ++ email_of u ++ " a " ++ value ++ "?")
       (POST (user_url u "set-plan") (JObj [("role", JStr value)]))
       (change_plan E u value))
  /\ (forall (u : json) (value : string),
        guarded E ("Cambiar rol de " ++ email_of u ++ " a " ++ value ++ "?")
          (POST (user_url u "set-role") (JObj [("role", JStr value)]))
          (change_role E u value))
  /\ (forall (u : json) (checked : bool),
        guarded E ((if checked then "Activar" else "Suspender") ++
                   " a " ++ email_of u ++ "?")
          (POST (user_url u "suspend") (JObj [("isActive", JBool checked)]))
          (change_active E u checked))
  /\ (forall u : json,
        guarded E ("Soft delete de " ++ email_of u ++
                   "? Mantiene datos y bloquea login.")
          (POST (user_url u "soft-delete") (JObj []))
          (click_soft_delete E u))
  /\ (forall u : json,
        guarded E ("Recuperar cuenta " ++ email_of u ++ "?")
          (POST (user_url u "recover") (JObj []))
          (click_recover E u))
  /\ (forall token : string,
        guarded E "Convertir esta cuenta en OWNER?"
          (POST "/api/admin/bootstrap/claim-owner" (JObj [("token", JStr token)]))
          (click_claim_owner E token))
  /\ guarded E (close_month_question E)
       (POST "/api/months/close" (year_month_payload (of_Z (year E)) (of_Z (month E))))
       (closeCurrentMonthAndRefresh E).
Proof.
  split; [exact change_plan_guarded |].
  split; [exact change_role_guarded |].
  split; [exact change_active_guarded |].
  split; [exact click_soft_delete_guarded |].
  split; [exact click_recover_guarded |].
  split; [exact click_claim_owner_guarded | exact close_month_guarded].
Qed.

(** C8, where the code departs from it. The month-close form of the
    bank view sends [POST /api/months/close] as its first effect and shows
    no confirmation dialog at all, whatever the user would answer. *)
Theorem month_close_form_asks_nothing (y m : number) (w : world) :
  exists evs,
    history (exec (submit_month_close E y m) w)
    = (history w ++ Requested (POST "/api/months/close" (year_month_payload y m)) :: evs)%list
    /\ Forall no_dialog evs
    /\ confirmations (history (exec (submit_month_close E y m) w))
       = confirmations (history w).
Proof.
  assert (forall g w0, exists evs,
            history (exec (try_catch
                       (bind (fetchJson E (POST "/api/months/close" (year_month_payload y m)))
                          (fun _ =>
                             bind (fetchJson E (GET "/api/bank/summary")) (fun bank =>
                             bind (cacheSet E "bankSummary" bank) (fun _ =>
                             bind (if (present E bank_balance_root &&
                                       present E bank_movements_root)%bool
                                   then bind (renderBankBalance
                                                (get (Some bank) "balanceByCurrency"))
                                          (fun _ => renderBankMovements
                                                      (get (Some bank) "movements"))
                                   else ret tt)
                               (fun _ => update month_close_root g
                                           (with_status "Mes cerrado"))))))
                       (fun e => update month_close_root g (with_status e))) w0)
            = (history w0 ++
               Requested (POST "/api/months/close" (year_month_payload y m)) :: evs)%list
            /\ Forall no_dialog evs) as Htry.
  { intros g w0. unfold exec, try_catch.
    match goal with
    | |- context [bind (fetchJson E ?r) ?k w0] =>
        destruct (request_first no_dialog r k
                    ltac:(intros j; unfold renderBankBalance, renderBankMovements; quiet) w0)
          as (evs & H & F); unfold exec in H;
        destruct (bind (fetchJson E r) k w0) as [[a | e] w1]
    end; cbn [snd] in *.
    - exists evs. auto.
    - destruct (update_history month_close_root g (with_status e) w1) as (_ & Hh & _).
      unfold exec in Hh. exists evs. rewrite Hh. auto. }
  assert (exists evs,
            history (exec (submit_month_close E y m) w)
            = (history w ++
               Requested (POST "/api/months/close" (year_month_payload y m)) :: evs)%list
            /\ Forall no_dialog evs) as (evs & H & F).
  { destruct (update_history month_close_root (default O (epoch w !! month_close_root))
                (with_status "") w) as (Hrun & Hh & _).
    destruct (Htry (default O (epoch w !! month_close_root))
                (exec (update month_close_root (default O (epoch w !! month_close_root))
                         (with_status "")) w)) as (evs & H & F).
    exists evs. split; [| exact F]. rewrite Hh in H. rewrite <- H.
    unfold submit_month_close, exec.
    cbv beta iota zeta delta [epoch_of bind get_world ret].
    rewrite Hrun. reflexivity. }
  exists evs. split; [exact H |]. split; [exact F |].
  rewrite H, confirmations_app.
  change (Requested ?r :: evs) with ([Requested r] ++ evs)%list.
  rewrite confirmations_app, (confirmations_quiet evs F).
  cbn. now rewrite app_nil_r.
Qed.

End Confirmation.

Section ConfirmationInstances.
Import JSNumber JS Outcome App AppSpec.

(** C8, the failing input: the month-close form submitted for November
    2026 by a user who would cancel every dialog. *)
Lemma month_close_form_unconfirmed :
  history (exec (submit_month_close offline (of_Z 2026) (of_Z 11)) initial_world)
  = [Requested (POST "/api/months/close" (year_month_payload (of_Z 2026) (of_Z 11)))].
Proof. vm_compute. reflexivity. Qed.

End ConfirmationInstances.

(** ** Amounts, labels and role levels *)

Section Amounts.
Import JSNumber JS Money App.

(** The cents of an amount are the rounded hundredfold of the number
    [formatMoney] displays for it, whatever the value: an input that
    [formatMoney] shows as zero counts as zero cents. *)
Theorem cents_of_displayed_value (v : jsvalue) :
  amountStrToCents v = Math_round (mul (formatMoney_value v) (of_Z 100)).
Proof.
  unfold amountStrToCents, formatMoney_value. cbv zeta.
  destruct (isFinite (StringToNumber _)); cbn [negb]; [reflexivity |].
  vm_compute. reflexivity.
Qed.

(** [formatMoney] never hands NaN or an infinity to the number formatter,
    and [amountStrToCents] never returns NaN. *)
Theorem amounts_are_numbers (v : jsvalue) :
  isFinite (formatMoney_value v) = true /\ isNaN (amountStrToCents v) = false.
Proof.
  split.
  - unfold formatMoney_value. cbv zeta.
    destruct (isFinite (StringToNumber _)) eqn:H; [exact H | reflexivity].
  - unfold amountStrToCents. cbv zeta.
    destruct (isFinite (StringToNumber _)) eqn:H; cbn [negb]; [| reflexivity].
    match goal with |- isNaN ?x = false => assert (x <> NaN) as Hx end.
    { apply Math_round_not_nan.
      change (of_Z 100) with (S754_finite false 7036874417766400 (-46)).
      apply mul_finite_not_nan. intros Hn. rewrite Hn in H. discriminate H. }
    destruct (Math_round _); try reflexivity. now contradiction Hx.
Qed.

(** [formatCentsNumber] and [centsToAmountStr] print the same text for
    every Number of cents but NaN, which the first prints as is and the
    second as zero. *)
Theorem formatCentsNumber_agrees (x : number) :
  formatCentsNumber (Some (JNum x))
  = if isNaN x then "NaN" else centsToAmountStr x.
Proof.
  unfold formatCentsNumber, centsToAmountStr. cbn [ToNumber].
  destruct x as [[] | s | | s m e]; cbn [isNaN truthy]; try reflexivity;
    vm_compute; reflexivity.
Qed.

(** [monthLabelEs] clamps the month into January to December: the label
    always starts with one of the twelve names, the first one for every
    month below 1 and the last one for every month above 12. *)
Theorem monthLabelEs_clamps (y m : Z) :
  monthLabelEs y m = monthLabelEs y (Z.max 1 (Z.min 12 m))
  /\ (exists name, In name month_names /\ monthLabelEs y m = name ++ " " ++ string_of_Z y)
  /\ (m <= 1 -> monthLabelEs y m = "Ene " ++ string_of_Z y)
  /\ (12 <= m -> monthLabelEs y m = "Dic " ++ string_of_Z y).
Proof.
  unfold monthLabelEs.
  assert (Z.max 1 (Z.min 12 m) = 1 \/ Z.max 1 (Z.min 12 m) = 2 \/
          Z.max 1 (Z.min 12 m) = 3 \/ Z.max 1 (Z.min 12 m) = 4 \/
          Z.max 1 (Z.min 12 m) = 5 \/ Z.max 1 (Z.min 12 m) = 6 \/
          Z.max 1 (Z.min 12 m) = 7 \/ Z.max 1 (Z.min 12 m) = 8 \/
          Z.max 1 (Z.min 12 m) = 9 \/ Z.max 1 (Z.min 12 m) = 10 \/
          Z.max 1 (Z.min 12 m) = 11 \/ Z.max 1 (Z.min 12 m) = 12) as Hc by lia.
  split; [| split; [| split]].
  - f_equal. f_equal. f_equal. lia.
  - destruct Hc as [H | [H | [H | [H | [H | [H | [H | [H | [H | [H | [H | H]]]]]]]]]]];
      rewrite H; eexists; (split; [| reflexivity]); cbn; tauto.
  - intros Hm. replace (Z.max 1 (Z.min 12 m)) with 1 by lia. reflexivity.
  - intros Hm. replace (Z.max 1 (Z.min 12 m)) with 12 by lia. reflexivity.
Qed.

Lemma level_of_ROLE_LEVEL (s : string) :
  (s = "ROLE_FREE" /\ level_of ROLE_LEVEL s = 10)
  \/ (s = "ROLE_PREMIUM" /\ level_of ROLE_LEVEL s = 20)
  \/ (s = "ROLE_ADMIN" /\ level_of ROLE_LEVEL s = 30)
  \/ (s = "ROLE_SUPER_ADMIN" /\ level_of ROLE_LEVEL s = 40)
  \/ (s = "ROLE_OWNER" /\ level_of ROLE_LEVEL s = 50)
  \/ (~ In s (map fst ROLE_LEVEL) /\ level_of ROLE_LEVEL s = 0).
Proof.
  unfold ROLE_LEVEL. cbn [level_of map fst In].
  destruct (String.eqb_spec "ROLE_FREE" s) as [<- | H1]; [tauto |].
  destruct (String.eqb_spec "ROLE_PREMIUM" s) as [<- | H2]; [tauto |].
  destruct (String.eqb_spec "ROLE_ADMIN" s) as [<- | H3]; [tauto |].
  destruct (String.eqb_spec "ROLE_SUPER_ADMIN" s) as [<- | H4]; [tauto |].
  destruct (String.eqb_spec "ROLE_OWNER" s) as [<- | H5]; [tauto |].
  do 5 right. split; [| reflexivity]. intuition congruence.
Qed.

(** [roleLevel] orders the five roles and gives every other value, the
    missing role included, the level 0, below every threshold the client
    tests: the administration links need [ROLE_ADMIN] or above, the audit
    log and the role select [ROLE_SUPER_ADMIN] or above, the premium
    functions [ROLE_PREMIUM] or above. *)
Theorem roleLevel_thresholds (role : jsvalue) :
  let name := ToString (or_else role (Some (JStr ""))) in
  ((20 <=? roleLevel role) = true <->
   name = "ROLE_PREMIUM" \/ name = "ROLE_ADMIN" \/ name = "ROLE_SUPER_ADMIN"
   \/ name = "ROLE_OWNER")
  /\ ((30 <=? roleLevel role) = true <->
      name = "ROLE_ADMIN" \/ name = "ROLE_SUPER_ADMIN" \/ name = "ROLE_OWNER")
  /\ ((40 <=? roleLevel role) = true <->
      name = "ROLE_SUPER_ADMIN" \/ name = "ROLE_OWNER")
  /\ (to_boolean role = false -> roleLevel role = 0).
Proof.
  intros name. unfold roleLevel. fold name.
  split; [| split; [| split]].
  4: { intros Hf. subst name. unfold or_else. rewrite Hf. reflexivity. }
  all: clearbody name.
  all: destruct (level_of_ROLE_LEVEL name)
         as [[Hn Hl] | [[Hn Hl] | [[Hn Hl] | [[Hn Hl] | [[Hn Hl] | [Hn Hl]]]]]];
       rewrite Hl; split; intros H.
  all: try (vm_compute in H; discriminate H).
  all: try (vm_compute; reflexivity).
  all: try (rewrite Hn; repeat (first [left; reflexivity | right]); reflexivity).
  all: exfalso.
  all: try (rewrite Hn in H; repeat (destruct H as [H | H]; [discriminate H |]);
            discriminate H).
  all: apply Hn; cbn [map fst ROLE_LEVEL In];
       repeat (destruct H as [H | H];
               [rewrite H; repeat (first [left; reflexivity | right]); reflexivity |]);
       rewrite H; repeat (first [left; reflexivity | right]); reflexivity.
Qed.

End Amounts.

(** ** Requests and the signed-in user *)

Section Requests.
Import JSNumber JS Outcome App AppSpec.
Variable E : env.

Local Arguments String.eqb : simpl never.

Lemma ok_is_false_object (j : json) : ok_is_false j = true -> to_boolean (Some j) = true.
Proof.
  destruct j; intros H; try reflexivity; vm_compute in H; discriminate H.
Qed.

Lemma ok_is_false_spec (j : json) :
  ok_is_false j = false <-> get (Some j) "ok" <> Some (JBool false).
Proof.
  unfold ok_is_false. destruct (get (Some j) "ok") as [[| [] | | | |] |];
    split; intros H; try reflexivity; try discriminate; try congruence.
Qed.

(** [fetchJson] issues its request and touches neither the cache nor the
    screen. It resolves exactly when a response arrives whose status is
    a success and whose body does not say [ok: false]; the value is the
    body, or [null] for a body that is no JSON. A transport failure is
    thrown with its own message. *)
Theorem fetchJson_settles (r : request) (w : world) :
  exec (fetchJson E r) w = logged (Requested r) w
  /\ (forall j : json,
        outcome (fetchJson E r) w = Ok j <->
        exists (status : Z) (b : option json),
          network E (history w) r = Response true status b
          /\ j = default JNull b
          /\ get (Some j) "ok" <> Some (JBool false))
  /\ (forall e : string,
        network E (history w) r = NetworkError e ->
        outcome (fetchJson E r) w = Throw e).
Proof.
  unfold exec, outcome. rewrite fetchJson_run. cbn [fst snd].
  split; [reflexivity |]. split.
  - intros j. unfold fetch_outcome.
    destruct (network E (history w) r) as [e | ok status b].
    + split; [discriminate |]. intros (st & b & H & _). discriminate H.
    + destruct ok; cbn [negb].
      * destruct (ok_is_false (default JNull b)) eqn:Hok.
        -- replace (match b with Some j0 => j0 | None => JNull end)
             with (default JNull b) by (destruct b; reflexivity).
           rewrite Hok, (ok_is_false_object _ Hok). cbn [andb].
           split; [discriminate |]. intros (st & b' & [= _ <-] & -> & Hne).
           apply ok_is_false_spec in Hne. congruence.
        -- replace (match b with Some j0 => j0 | None => JNull end)
             with (default JNull b) by (destruct b; reflexivity).
           rewrite Hok, andb_false_r. split.
           ++ intros [= <-]. exists status, b. split; [reflexivity |].
              split; [reflexivity |]. now apply ok_is_false_spec.
           ++ intros (st & b' & [= _ <-] & -> & _). reflexivity.
      * split; [discriminate |]. intros (st & b' & [= ] & _).
  - intros e ->. reflexivity.
Qed.


Lemma requests_logged_request (r : request) (h : list event) :
  requests (h ++ [Requested r]) = (requests h ++ [r])%list.
Proof. unfold requests. rewrite omap_app. reflexivity. Qed.

(** [refresh] of the administration view asks for the users, and for
    the audit log only after the users arrived and only for a signed-in
    [ROLE_SUPER_ADMIN] or [ROLE_OWNER]. *)
Theorem audit_log_needs_super_admin (w : world) :
  let name := ToString (or_else (get (CURRENT_USER w) "role") (Some (JStr ""))) in
  requests (history (exec (refresh_admin E) w))
  = (requests (history w) ++
     GET "/api/admin/users" ::
     (if (is_ok (fetch_outcome (network E (history w) (GET "/api/admin/users")))
          && (String.eqb name "ROLE_SUPER_ADMIN" || String.eqb name "ROLE_OWNER"))%bool
      then [GET "/api/admin/audit"] else []))%list.
Proof.
  intros name. unfold refresh_admin, exec, bind. rewrite fetchJson_run.
  destruct (fetch_outcome _) as [usersRes | e]; cbn [is_ok andb snd].
  2: { cbn [history logged]. apply requests_logged_request. }
  cbv beta iota delta [get_world]. cbn [CURRENT_USER logged].
  unfold roleLevel. fold name.
  destruct (level_of_ROLE_LEVEL name)
    as [[Hn Hl] | [[Hn Hl] | [[Hn Hl] | [[Hn Hl] | [[Hn Hl] | [Hn Hl]]]]]];
    rewrite Hl.
  1-3: rewrite Hn; cbn [Z.leb Z.compare Pos.compare Pos.compare_cont];
       change (String.eqb _ "ROLE_SUPER_ADMIN") with false;
       change (String.eqb _ "ROLE_OWNER") with false; cbn [orb ret];
       rewrite render_run; cbn [snd history rendered logged];
       apply requests_logged_request.
  1-2: rewrite Hn;
       first [change (String.eqb _ "ROLE_SUPER_ADMIN") with true
             | change (String.eqb _ "ROLE_OWNER") with true;
               change (String.eqb _ "ROLE_SUPER_ADMIN") with false];
       cbn [orb Z.leb Z.compare Pos.compare Pos.compare_cont];
       rewrite fetchJson_run;
       destruct (fetch_outcome _) as [logsRes | e];
       [rewrite render_run |]; cbn [snd history rendered logged];
       rewrite !requests_logged_request, <- app_assoc; reflexivity.
  assert (String.eqb name "ROLE_SUPER_ADMIN" = false) as ->.
  { apply String.eqb_neq. intros H. apply Hn. rewrite H. cbn. tauto. }
  assert (String.eqb name "ROLE_OWNER" = false) as ->.
  { apply String.eqb_neq. intros H. apply Hn. rewrite H. cbn. tauto. }
  cbn [orb Z.leb Z.compare ret]. rewrite render_run. cbn [snd history rendered logged].
  apply requests_logged_request.
Qed.

(** A view whose root elements are not all on the page does nothing: no
    cache access, no request, no change of the screen. *)
Theorem views_without_root_do_nothing (w : world) :
  (present E dashboard_root = false -> initDashboard E w = (Ok tt, w))
  /\ (present E admin_root = false -> initAdmin E w = (Ok tt, w))
  /\ (present E companies_root = false \/ present E entries_root = false ->
      initCompaniesAndWorkEntries E w = (Ok tt, w))
  /\ (present E expense_form_root = false \/ present E expenses_root = false ->
      initExpenses E w = (Ok tt, w))
  /\ (present E bank_balance_root = false \/ present E bank_movements_root = false
      \/ present E month_close_root = false ->
      initBank E w = (Ok tt, w))
  /\ (present E debt_form_root = false \/ present E debts_root = false ->
      initDebts E w = (Ok tt, w))
  /\ (present E reports_root = false -> initReports E w = (Ok tt, w)).
Proof.
  unfold initDashboard, initAdmin, initCompaniesAndWorkEntries, initExpenses, initBank,
    initDebts, initReports, when_present. cbn [forallb].
  repeat split; intros H;
    repeat (destruct H as [H | H]); rewrite H, ?andb_false_r; reflexivity.
Qed.

End Requests.

Section RequestsInstances.
Import JSNumber JS Outcome App AppSpec.

(** A page that shows the dashboard only. *)
Lemma views_without_root_witness :
  present dashboard_only expenses_root = false
  /\ initExpenses dashboard_only initial_world = (Ok tt, initial_world).
Proof.
  split; [reflexivity |].
  destruct (views_without_root_do_nothing dashboard_only initial_world)
    as (_ & _ & _ & H & _).
  apply H. right. reflexivity.
Defined.

End RequestsInstances.

(** ** The views beyond their failure paths *)

Section Views.
Import JSNumber JS Outcome App AppSpec.
Variable E : env.

Lemma doubleConfirm_run (q : string) (w : world) :
  doubleConfirm E q w
  = if dialogs E (history w) q
    then (Ok (dialogs E (history w ++ [Confirmed q true]) final_confirmation),
          logged (Confirmed final_confirmation
                    (dialogs E (history w ++ [Confirmed q true]) final_confirmation))
            (logged (Confirmed q true) w))
    else (Ok false, logged (Confirmed q false) w).
Proof.
  unfold doubleConfirm, bind. rewrite confirm_run.
  destruct (dialogs E (history w) q); cbn [negb]; [rewrite confirm_run |]; reflexivity.
Qed.

(** The answer of [doubleConfirm] and the dialogs it shows depend on the
    history alone. *)
Lemma doubleConfirm_history (q : string) (w w' : world) :
  history w' = history w ->
  fst (doubleConfirm E q w') = fst (doubleConfirm E q w)
  /\ history (snd (doubleConfirm E q w')) = history (snd (doubleConfirm E q w))
  /\ screen (snd (doubleConfirm E q w')) = screen w'
  /\ store (snd (doubleConfirm E q w')) = store w'.
Proof.
  intros H. rewrite !doubleConfirm_run, H.
  destruct (dialogs E (history w) q); cbn [fst snd history screen store logged];
    rewrite ?H; auto.
Qed.

(** A declined month close leaves the close button disabled: the click
    handler disables it before it asks, and re-enables it only when the
    close throws. No request is made. *)
Theorem declined_close_disables_button (w : world) (data : json) (b : bool) :
  screen w !! dashboard_root = Some (DashboardCards data b) ->
  outcome (doubleConfirm E (close_month_question E)) w = Ok false ->
  outcome (click_close_month E) w = Ok tt
  /\ requests (history (exec (click_close_month E) w)) = requests (history w)
  /\ store (exec (click_close_month E) w) = store w
  /\ screen (exec (click_close_month E) w)
     = <[dashboard_root := DashboardCards data true]> (screen w).
Proof.
  intros Hscreen Hno.
  unfold click_close_month, outcome, exec.
  cbv beta iota zeta delta [bind epoch_of get_world ret try_catch].
  rewrite (update_run dashboard_root _ (with_close_disabled true) _ w Hscreen eq_refl).
  cbv beta iota. cbn [with_close_disabled].
  set (w1 := {| store := store w;
                screen := <[dashboard_root := DashboardCards data true]> (screen w);
                epoch := epoch w; history := history w;
                CURRENT_USER := CURRENT_USER w |}).
  unfold closeCurrentMonthAndRefresh, bind.
  destruct (doubleConfirm_history (close_month_question E) w w1 eq_refl)
    as (Hfst & Hhist & Hscr & Hsto).
  unfold outcome in Hno. rewrite Hno in Hfst.
  destruct (doubleConfirm E (close_month_question E) w1) as [r w2].
  cbn [fst snd] in *. subst r. cbn [negb ret fst snd].
  split; [reflexivity |]. rewrite Hhist, Hscr, Hsto.
  split; [| split; reflexivity].
  rewrite doubleConfirm_run in Hno |- *.
  destruct (dialogs E (history w) (close_month_question E)); cbn [fst snd] in *.
  - cbn [history logged]. unfold requests. rewrite !omap_app. cbn. now rewrite !app_nil_r.
  - cbn [history logged]. unfold requests. rewrite !omap_app. cbn. now rewrite !app_nil_r.
Qed.

(** A month close that the server refuses re-enables the close button
    and shows the message in an alert dialog; the cache and the cards
    stay as they were. *)
Theorem failed_close_reenables_button (w : world) (data : json) (b : bool) (msg : string) :
  screen w !! dashboard_root = Some (DashboardCards data b) ->
  outcome (doubleConfirm E (close_month_question E)) w = Ok true ->
  outcome (fetchJson E (POST "/api/months/close"
                          (year_month_payload (of_Z (year E)) (of_Z (month E)))))
    (exec (doubleConfirm E (close_month_question E)) w) = Throw msg ->
  outcome (click_close_month E) w = Ok tt
  /\ history (exec (click_close_month E) w)
     = (history (exec (doubleConfirm E (close_month_question E)) w) ++
        [Requested (POST "/api/months/close"
                      (year_month_payload (of_Z (year E)) (of_Z (month E))));
         Alerted msg])%list
  /\ store (exec (click_close_month E) w) = store w
  /\ screen (exec (click_close_month E) w)
     = <[dashboard_root := DashboardCards data false]> (screen w).
Proof.
  intros Hscreen Hyes Hfetch.
  unfold click_close_month, outcome, exec.
  cbv beta iota zeta delta [bind epoch_of get_world ret try_catch].
  rewrite (update_run dashboard_root _ (with_close_disabled true) _ w Hscreen eq_refl).
  cbv beta iota. cbn [with_close_disabled].
  set (w1 := {| store := store w;
                screen := <[dashboard_root := DashboardCards data true]> (screen w);
                epoch := epoch w; history := history w;
                CURRENT_USER := CURRENT_USER w |}).
  unfold closeCurrentMonthAndRefresh, bind.
  destruct (doubleConfirm_history (close_month_question E) w w1 eq_refl)
    as (Hfst & Hhist & Hscr & Hsto).
  unfold outcome in Hyes. rewrite Hyes in Hfst.
  assert (epoch (snd (doubleConfirm E (close_month_question E) w1)) = epoch w) as Hep.
  { rewrite doubleConfirm_run.
    destruct (dialogs E (history w1) (close_month_question E)); reflexivity. }
  unfold outcome, exec in Hfetch. rewrite fetchJson_run in Hfetch. cbn [fst] in Hfetch.
  destruct (doubleConfirm E (close_month_question E) w1) as [r w2].
  cbn [fst snd] in *. subst r. cbn [negb]. rewrite fetchJson_run.
  rewrite Hhist, Hfetch.
  assert (screen (logged (Requested (POST "/api/months/close"
                     (year_month_payload (of_Z (year E)) (of_Z (month E))))) w2)
            !! dashboard_root = Some (DashboardCards data true)) as Hs2
    by (cbn [screen logged]; rewrite Hscr; apply lookup_insert_eq).
  rewrite (update_run dashboard_root _ (with_close_disabled false) _ _ Hs2)
    by (cbn [epoch logged]; now rewrite Hep).
  cbn [fst snd record history store screen logged with_close_disabled].
  rewrite Hhist, Hscr, Hsto. cbn [screen store w1].
  split; [reflexivity |]. split; [now rewrite <- app_assoc |].
  split; [reflexivity |]. apply insert_insert_eq.
Qed.

Lemma refresh_admin_asks (w : world) :
  exists rest,
    requests (history (exec (refresh_admin E) w))
    = (requests (history w) ++ GET "/api/admin/users" :: rest)%list
    /\ (rest = [] \/ rest = [GET "/api/admin/audit"]).
Proof.
  unfold refresh_admin, exec, bind. rewrite fetchJson_run.
  destruct (fetch_outcome _) as [usersRes | e]; cbn [snd].
  2: { exists []. split; [| now left]. cbn [history logged]. apply requests_app. }
  cbv beta iota delta [get_world].
  destruct (40 <=? roleLevel _).
  - rewrite fetchJson_run. exists [GET "/api/admin/audit"]. split; [| now right].
    destruct (fetch_outcome _) as [logsRes | e]; [rewrite render_run |];
      cbn [snd history rendered logged]; rewrite !requests_app, <- app_assoc; reflexivity.
  - exists []. split; [| now left]. cbn [ret]. rewrite render_run.
    cbn [snd history rendered logged]. apply requests_app.
Qed.

(** [initAdmin] asks who the user is only when it does not know, and
    asks for the users whether or not that request succeeded; a user it
    knew stays the signed-in user. *)
Theorem initAdmin_requests (w : world) :
  present E admin_root = true ->
  (exists rest,
     requests (history (exec (initAdmin E) w))
     = (requests (history w) ++
        (if to_boolean (CURRENT_USER w) then [] else [GET "/api/me"]) ++
        GET "/api/admin/users" :: rest)%list
     /\ (rest = [] \/ rest = [GET "/api/admin/audit"]))
  /\ (to_boolean (CURRENT_USER w) = true ->
      CURRENT_USER (exec (initAdmin E) w) = CURRENT_USER w).
Proof.
  intros Hroot.
  assert (forall w0, CURRENT_USER (exec (refresh_admin E) w0) = CURRENT_USER w0) as Huser.
  { intros w0. unfold refresh_admin, exec, bind. rewrite fetchJson_run.
    destruct (fetch_outcome _) as [usersRes | e]; [| reflexivity].
    cbv beta iota delta [get_world].
    destruct (40 <=? roleLevel _); [rewrite fetchJson_run |];
      [destruct (fetch_outcome _) as [logsRes | e]; [rewrite render_run |] |
       cbn [ret]; rewrite render_run]; reflexivity. }
  assert (exists w0,
            initAdmin E w = refresh_admin E w0
            /\ requests (history w0)
               = (requests (history w) ++
                  (if to_boolean (CURRENT_USER w) then [] else [GET "/api/me"]))%list
            /\ (to_boolean (CURRENT_USER w) = true -> CURRENT_USER w0 = CURRENT_USER w))
    as (w0 & Hrun & Hreq0 & Hu0).
  { unfold initAdmin, when_present. cbn [forallb]. rewrite Hroot. cbn [andb].
    unfold bind at 1. rewrite render_run.
    unfold bind at 1. unfold try_catch.
    cbv beta iota delta [get_world bind]. cbn [CURRENT_USER rendered].
    destruct (to_boolean (CURRENT_USER w)) eqn:Hu.
    - cbn [ret set_user]. eexists. split; [reflexivity |].
      cbn [history CURRENT_USER]. split; [now rewrite app_nil_r |]. intros _.
      destruct (CURRENT_USER w) as [u |] eqn:Hcu; [| discriminate Hu].
      cbn [get assoc]. change (String.eqb "user" "user") with true. cbv iota.
      unfold or_else. now rewrite Hu.
    - rewrite fetchJson_run.
      destruct (fetch_outcome _) as [me | e]; cbn [ret set_user];
        (eexists; split; [reflexivity |]); cbn [history logged];
        (split; [apply requests_app | discriminate]). }
  destruct (refresh_admin_asks w0) as (rest & Hreq & Hrest).
  unfold exec in *. rewrite Hrun. split.
  - exists rest. split; [| exact Hrest]. rewrite Hreq, Hreq0, <- app_assoc. reflexivity.
  - intros Hu. rewrite Huser. exact (Hu0 Hu).
Qed.

Lemma init_runs {A} (roots : list string) (stale : M A) (fresh : A -> M unit)
    (w : world) (a : A) :
  forallb (present E) roots = true ->
  outcome stale w = Ok a ->
  when_present E roots (bind stale fresh) w = fresh a (exec stale w).
Proof.
  intros Hroots H. unfold when_present. rewrite Hroots.
  unfold exec, bind, outcome in *. destruct (stale w) as [r ws].
  cbn [fst snd] in *. now subst r.
Qed.

Lemma fresh_succeeds {A} (r : request) (rest : json -> M A) (h : string -> M A)
    (w : world) (fresh : json) :
  outcome (fetchJson E r) w = Ok fresh ->
  try_catch (bind (fetchJson E r) rest) h w
  = try_catch (rest fresh) h (logged (Requested r) w).
Proof.
  unfold try_catch, bind, outcome. rewrite fetchJson_run. cbn [fst].
  intros ->. reflexivity.
Qed.

Lemma written_store (k : string) (d : json) (w : world) :
  store (written E k d w)
  = if CacheStore.healthy (storage E (history w))
    then <[k := {| CacheStore.key := k; CacheStore.data := d;
                   CacheStore.updatedAt := now E (history w) |}]> (store w)
    else store w.
Proof.
  unfold written. cbn [store].
  destruct (CacheStore.healthy (storage E (history w))) eqn:Hh.
  - now rewrite cacheSet_healthy by exact Hh.
  - now rewrite cacheSet_unhealthy by exact Hh.
Qed.

Lemma expenses_success :
  success_protocol E [expense_form_root; expenses_root] (initExpenses E)
    (expenses_stale E) (GET "/api/expenses") "expenses" expenses_root "expenses"
    (fun p => expense_rows (get (Some p) "expenses"))
    (fun fresh => ExpensesTable (get (Some fresh) "expenses")).
Proof.
  intros w cached fresh Hroots Hstale _ Hfetch _ h.
  assert (initExpenses E w
          = (Ok tt, rendered expenses_root (ExpensesTable (get (Some fresh) "expenses"))
               (written E "expenses" fresh (logged (Requested (GET "/api/expenses")) (exec (expenses_stale E) w))))) as Hrun.
  { unfold initExpenses. rewrite (init_runs _ _ _ w cached Hroots Hstale).
    unfold expenses_fresh. rewrite (fresh_succeeds _ _ _ _ fresh Hfetch).
    unfold try_catch, bind, renderExpenses. rewrite cacheSet_run, !render_run. reflexivity. }
  match type of Hrun with
  | ?m w = (_, ?w') =>
      assert (outcome m w = Ok tt) as -> by (unfold outcome; now rewrite Hrun);
      assert (exec m w = w') as -> by (unfold exec at 1; now rewrite Hrun)
  end.
  cbn [fst snd history store screen rendered]. rewrite written_store.
  cbn [history written logged]. fold h.
  destruct (expenses_stale_run E w) as (c & _ & Hws).
  split; [reflexivity |]. split; [reflexivity |]. split.
  - assert (store (logged (Requested (GET "/api/expenses")) (exec (expenses_stale E) w)) = store w)
      as ->; [| reflexivity].
    cbn [store logged]. rewrite Hws. destruct (to_boolean (get (Some c) "expenses")); reflexivity.
  - apply lookup_insert_eq.
Qed.




Lemma healthy_readable (i : CacheStore.idb) :
  CacheStore.healthy i = true -> CacheStore.readable i = true.
Proof. destruct i as [[] [] [] []]; cbn; congruence. Qed.

Lemma expenses_stale_reads (w : world) :
  outcome (expenses_stale E) w
  = CacheStore.cacheGet (storage E (history w)) (store w) "expenses".
Proof.
  unfold expenses_stale, outcome, bind. rewrite cacheGet_run.
  destruct (CacheStore.cacheGet _ _ _) as [v | e]; [| reflexivity].
  destruct (to_boolean (get (Some v) "expenses")); reflexivity.
Qed.

Lemma rows_truthy (fields : list string) (v : jsvalue) :
  rows fields v = true -> to_boolean v = true.
Proof. destruct v as [[] |]; cbn; congruence. Qed.

Lemma get_truthy_object (j : json) (k : string) :
  to_boolean (get (Some j) k) = true -> to_boolean (Some j) = true.
Proof. destruct j; cbn [get to_boolean]; congruence. Qed.

(** The point of the cache: a visit of the expenses view that reached
    the server, followed by a visit that does not, shows the expenses of
    the first visit, given a storage engine that works. The second visit
    settles without an exception and leaves the cache as the first one
    wrote it. *)
Theorem expenses_survive_offline_revisit (w : world) (cached fresh : json) (msg : string) :
  forallb (present E) [expense_form_root; expenses_root] = true ->
  (forall h, CacheStore.healthy (storage E h) = true) ->
  outcome (expenses_stale E) w = Ok cached ->
  (to_boolean (get (Some cached) "expenses") = true ->
   expense_rows (get (Some cached) "expenses") = true) ->
  outcome (fetchJson E (GET "/api/expenses")) (exec (expenses_stale E) w) = Ok fresh ->
  expense_rows (get (Some fresh) "expenses") = true ->
  outcome (fetchJson E (GET "/api/expenses"))
    (exec (expenses_stale E) (exec (initExpenses E) w)) = Throw msg ->
  outcome (expenses_stale E) (exec (initExpenses E) w) = Ok fresh
  /\ store (exec (initExpenses E) (exec (initExpenses E) w))
     = store (exec (initExpenses E) w)
  /\ screen (exec (initExpenses E) (exec (initExpenses E) w)) !! expenses_root
     = Some (ExpensesTable (get (Some fresh) "expenses")).
Proof.
  intros Hroots Hhealthy Hstale Hshape Hfetch Hrows Hfetch2.
  destruct (expenses_success w cached fresh Hroots Hstale Hshape Hfetch Hrows)
    as (_ & _ & Hstore & _).
  rewrite Hhealthy in Hstore.
  set (w1 := exec (initExpenses E) w) in *.
  assert (outcome (expenses_stale E) w1 = Ok fresh) as Hstale1.
  { rewrite expenses_stale_reads.
    rewrite cacheGet_readable by (apply healthy_readable, Hhealthy).
    now rewrite Hstore, lookup_insert_eq. }
  pose proof (rows_truthy _ _ Hrows) as Htruthy.
  destruct (expenses_failure E w1 fresh msg Hroots Hstale1 Hfetch2)
    as (Hsto & _ & Hshown & Hkept & _).
  split; [exact Hstale1 |]. split; [exact Hsto |].
  rewrite (Hkept (get_truthy_object _ _ Htruthy)). exact (Hshown Htruthy).
Qed.

(** The companies view fetches its two lists one after the other and
    caches each as it arrives: when the companies arrive and the work
    entries do not, on a first visit, the companies are in the cache all
    the same, both requests were made, and the failure state replaces
    the companies just rendered unless a payload of them was cached. *)
Theorem companies_partial_failure (w : world) (cc ce companies : json) (msg : string) :
  forallb (present E) [companies_root; entries_root] = true ->
  outcome (companies_stale E) w = Ok (cc, ce) ->
  to_boolean (get (Some cc) "companies") = false ->
  to_boolean (get (Some ce) "entries") = false ->
  (forall h, fetch_outcome (network E h (GET "/api/companies")) = Ok companies) ->
  company_rows (get (Some companies) "companies") = true ->
  (forall h, fetch_outcome (network E h (GET "/api/work-entries")) = Throw msg) ->
  outcome (initCompaniesAndWorkEntries E) w = Ok tt
  /\ written_keys (history (exec (initCompaniesAndWorkEntries E) w))
     = (written_keys (history w) ++ ["companies"])%list
  /\ requests (history (exec (initCompaniesAndWorkEntries E) w))
     = (requests (history w) ++ [GET "/api/companies"; GET "/api/work-entries"])%list
  /\ screen (exec (initCompaniesAndWorkEntries E) w) !! companies_root
     = Some (if to_boolean (Some cc)
             then CompaniesPanel (get (Some companies) "companies") ""
             else Alert msg)
  /\ screen (exec (initCompaniesAndWorkEntries E) w) !! entries_root
     = (if to_boolean (Some ce) then screen w !! entries_root else Some (Alert msg)).
Proof.
  intros Hroots Hstale Hcc Hce Hcompanies _ Hentries.
  destruct (companies_stale_run E w) as (cc' & ce' & Hc & Hws).
  rewrite Hc in Hstale. injection Hstale as -> ->.
  rewrite Hcc, Hce in Hws.
  assert (initCompaniesAndWorkEntries E w
          = (Ok tt,
             (if to_boolean (Some ce) then fun x => x
              else rendered entries_root (Alert msg))
               ((if to_boolean (Some cc) then fun x => x
                 else rendered companies_root (Alert msg))
                  (logged (Requested (GET "/api/work-entries"))
                     (rendered companies_root
                        (CompaniesPanel (get (Some companies) "companies") "")
                        (written E "companies" companies
                           (logged (Requested (GET "/api/companies"))
                              (logged (CacheRead "workEntries")
                                 (logged (CacheRead "companies") w))))))))) as Hrun.
  { unfold initCompaniesAndWorkEntries.
    rewrite (init_runs _ _ (fun p => let '(a, b) := p in companies_fresh E a b)
               w (cc, ce) Hroots Hc).
    rewrite Hws. unfold companies_fresh, try_catch, bind, renderCompanies.
    rewrite fetchJson_run, Hcompanies, cacheSet_run, render_run, fetchJson_run, Hentries.
    destruct (to_boolean (Some cc)), (to_boolean (Some ce)); cbn [negb];
      rewrite ?render_run; reflexivity. }
  unfold outcome, exec. rewrite Hrun. cbn [fst snd].
  split; [reflexivity |].
  destruct (to_boolean (Some cc)), (to_boolean (Some ce));
    cbn [history screen rendered logged written].
  all: split; [unfold written_keys; rewrite !omap_app; cbn;
               rewrite ?app_nil_r; reflexivity |].
  all: split; [unfold requests; rewrite !omap_app; cbn;
               rewrite ?app_nil_r, <- ?app_assoc; reflexivity |].
  all: split.
  all: rewrite ?lookup_insert_eq; try reflexivity.
  all: repeat (rewrite lookup_insert_ne by discriminate); rewrite ?lookup_insert_eq;
       reflexivity.
Qed.


End Views.

Section CacheRoundTrip.
Import JSNumber JS Outcome CacheStore.

(** What [cacheSet] stored, [cacheGet] reads back, given a storage
    engine that works for both; the rows under other keys read as
    before. *)
Theorem cache_round_trip (i i' : idb) (now : Z) (s : gmap string entry)
    (k k' : string) (d : json) :
  healthy i = true ->
  readable i' = true ->
  cacheGet i' (snd (cacheSet i now s k d)) k = Ok d
  /\ (k' <> k -> cacheGet i' (snd (cacheSet i now s k d)) k' = cacheGet i' s k').
Proof.
  intros Hi Hi'. rewrite (cacheSet_healthy i now s k d Hi). cbn [snd].
  rewrite !cacheGet_readable by exact Hi'. split.
  - now rewrite lookup_insert_eq.
  - intros Hk. now rewrite lookup_insert_ne by congruence.
Qed.

End CacheRoundTrip.

Section ViewsInstances.
Import JSNumber JS Outcome App AppSpec.

(** A user who declines to close November 2026. *)
Lemma declined_close_witness :
  screen world_with_dashboard !! dashboard_root
  = Some (DashboardCards (JObj [("bootstrap", JObj []); ("report", cached_report)]) false)
  /\ requests (history (exec (click_close_month offline) world_with_dashboard)) = []
  /\ screen (exec (click_close_month offline) world_with_dashboard) !! dashboard_root
     = Some (DashboardCards (JObj [("bootstrap", JObj []); ("report", cached_report)]) true).
Proof.
  destruct (declined_close_disables_button offline world_with_dashboard
              (JObj [("bootstrap", JObj []); ("report", cached_report)]) false
              eq_refl eq_refl) as (_ & Hreq & _ & Hscreen).
  split; [reflexivity |]. split; [exact Hreq |].
  rewrite Hscreen. apply lookup_insert_eq.
Defined.

(** The server refuses the close that the user confirmed twice. *)
Lemma failed_close_witness :
  screen (exec (click_close_month confirmed_offline) world_with_dashboard) !! dashboard_root
  = Some (DashboardCards (JObj [("bootstrap", JObj []); ("report", cached_report)]) false)
  /\ In (Alerted "Failed to fetch")
       (history (exec (click_close_month confirmed_offline) world_with_dashboard)).
Proof.
  destruct (failed_close_reenables_button confirmed_offline world_with_dashboard
              (JObj [("bootstrap", JObj []); ("report", cached_report)]) false
              "Failed to fetch" eq_refl eq_refl eq_refl) as (_ & Hhist & _ & Hscreen).
  split; [rewrite Hscreen; apply lookup_insert_eq |].
  rewrite Hhist. apply in_or_app. right. right. left. reflexivity.
Defined.

(** A signed-in user opens the administration view. *)
Lemma initAdmin_requests_witness :
  CURRENT_USER (exec (initAdmin offline) world_with_report)
  = Some (JObj [("role", JStr "ROLE_FREE")]).
Proof.
  destruct (initAdmin_requests offline world_with_report eq_refl) as (_ & H).
  exact (H eq_refl).
Defined.


(** The server answers the first visit and is out of reach at the
    second. *)
Lemma offline_revisit_witness :
  screen (exec (initExpenses (first_answer_only one_expense))
            (exec (initExpenses (first_answer_only one_expense)) initial_world))
    !! expenses_root
  = Some (ExpensesTable (get (Some one_expense) "expenses")).
Proof.
  destruct (expenses_survive_offline_revisit (first_answer_only one_expense)
              initial_world JNull one_expense "Failed to fetch"
              eq_refl (fun _ => eq_refl) eq_refl
              (fun Hc : false = true => Hc) eq_refl eq_refl eq_refl)
    as (_ & _ & Hscreen).
  exact Hscreen.
Defined.

(** The companies arrive, the work entries do not. *)
Lemma companies_partial_failure_witness :
  written_keys (history (exec (initCompaniesAndWorkEntries (entries_down one_company))
                           initial_world))
  = ["companies"]
  /\ screen (exec (initCompaniesAndWorkEntries (entries_down one_company)) initial_world)
       !! companies_root
     = Some (Alert "Failed to fetch").
Proof.
  destruct (companies_partial_failure (entries_down one_company) initial_world
              JNull JNull one_company "Failed to fetch"
              eq_refl eq_refl eq_refl eq_refl (fun _ => eq_refl) eq_refl
              (fun _ => eq_refl))
    as (_ & Hkeys & _ & Hscreen & _).
  split; [exact Hkeys | exact Hscreen].
Defined.


(** A row written by a healthy engine is read back by a healthy engine. *)
Lemma cache_round_trip_witness :
  CacheStore.cacheGet (storage offline [])
    (snd (CacheStore.cacheSet (storage offline []) 1793620800000 ∅ "debts" (JObj [])))
    "debts"
  = Ok (JObj []).
Proof.
  destruct (cache_round_trip (storage offline []) (storage offline []) 1793620800000
              ∅ "debts" "expenses" (JObj []) eq_refl eq_refl) as (H & _).
  exact H.
Defined.

End ViewsInstances.
